(** * go-lambda: the mutual-fund NAV handler of [main.go]

    A shallow embedding of the Lambda handler, of the library calls it
    relies on ([strconv.Atoi], [time.Parse], [time.Format] and the
    comparisons of [time.Time]) and of its environment (the clock and the
    upstream API), followed by the properties of the validation, filtering
    and response-building pipeline.

    Go strings are byte sequences: they are modelled by [string] (a list of
    8-bit characters).  Go's [int] is 64 bits wide on the build target
    (GOARCH=amd64) and is modelled by [Z], with the range test written out
    where the code can observe it ([strconv.Atoi]).  A Go [error] value is
    modelled by its message, and a possibly-nil error by [option string];
    a function that returns [(T, error)] returns a pair.  The two effects
    of the handler, reading the clock and calling [http.Get], are modelled
    by a reader of the environment that logs the calls of [http.Get]. *)

From Stdlib Require Import ZArith Lia Bool Ascii String List.
From stdpp Require Import base option gmap strings list.

Local Open Scope Z_scope.

(** ** Characters and decimal digits *)

Definition byte_val (c : ascii) : Z := Z.of_N (N_of_ascii c).

Definition is_digit (c : ascii) : bool :=
  (48 <=? byte_val c) && (byte_val c <=? 57).

Definition digit_val (c : ascii) : Z := byte_val c - 48.

Definition digit_char (d : Z) : ascii := ascii_of_N (Z.to_N (48 + d)).

(** ** [strconv.Atoi]

    Base-10 integer parsing: an optional sign, at least one digit, nothing
    but digits, and a value that fits the 64-bit [int]. *)
Module strconv.

Definition intSize : Z := 64.
Definition maxInt : Z := 2 ^ (intSize - 1) - 1.
Definition minInt : Z := - 2 ^ (intSize - 1).

(** The digits of [s], most significant first, accumulated onto [acc];
    [None] at the first byte that is not a digit. *)
Fixpoint digits (acc : Z) (s : string) : option Z :=
  match s with
  | EmptyString => Some acc
  | String c rest =>
      if is_digit c then digits (10 * acc + digit_val c) rest else None
  end.

Definition Atoi (s : string) : option Z :=
  let '(neg, body) :=
    match s with
    | String "-" rest => (true, rest)
    | String "+" rest => (false, rest)
    | _ => (false, s)
    end in
  match body with
  | EmptyString => None                            (* ErrSyntax *)
  | _ =>
      n ← digits 0 body;
      let x := if neg then - n else n in
      if (minInt <=? x) && (x <=? maxInt) then Some x else None  (* ErrRange *)
  end.

End strconv.

(** ** The [time] package, as far as the handler uses it

    A [Time] is an instant: seconds since January 1, year 1 00:00:00 UTC
    (Go's internal epoch, the reading of [t.sec()]) and nanoseconds within
    the second.  The monotonic clock reading of [time.Now()] plays no role:
    every comparison of the program has a parsed time, which carries none,
    on one side. *)
Module time.

Record Time : Type := mkTime { sec : Z; nsec : Z }.

(** [time.Time{}] *)
Definition zero : Time := mkTime 0 0.

Definition IsZero (t : Time) : bool := (sec t =? 0) && (nsec t =? 0).

Definition After (t u : Time) : bool :=
  (sec t >? sec u) || ((sec t =? sec u) && (nsec t >? nsec u)).

Definition Before (t u : Time) : bool :=
  (sec t <? sec u) || ((sec t =? sec u) && (nsec t <? nsec u)).

Definition Equal (t u : Time) : bool :=
  (sec t =? sec u) && (nsec t =? nsec u).

(** Calendar constants of the package. *)
Definition secondsPerDay : Z := 86400.
Definition daysPer400Years : Z := 365 * 400 + 97.
Definition daysPer100Years : Z := 365 * 100 + 24.
Definition daysPer4Years : Z := 365 * 4 + 1.
Definition absoluteZeroYear : Z := -292277022399.
Definition internalYear : Z := 1.
Definition absoluteToInternal : Z :=
  (absoluteZeroYear - internalYear) * 3652425 * secondsPerDay / 10000.
Definition internalToAbsolute : Z := - absoluteToInternal.

(** [daysBefore[m]]: days in a non-leap year before month [m+1]. *)
Definition daysBefore (m : Z) : Z :=
  match m with
  | 0 => 0
  | 1 => 31
  | 2 => 31 + 28
  | 3 => 31 + 28 + 31
  | 4 => 31 + 28 + 31 + 30
  | 5 => 31 + 28 + 31 + 30 + 31
  | 6 => 31 + 28 + 31 + 30 + 31 + 30
  | 7 => 31 + 28 + 31 + 30 + 31 + 30 + 31
  | 8 => 31 + 28 + 31 + 30 + 31 + 30 + 31 + 31
  | 9 => 31 + 28 + 31 + 30 + 31 + 30 + 31 + 31 + 30
  | 10 => 31 + 28 + 31 + 30 + 31 + 30 + 31 + 31 + 30 + 31
  | 11 => 31 + 28 + 31 + 30 + 31 + 30 + 31 + 31 + 30 + 31 + 30
  | _ => 31 + 28 + 31 + 30 + 31 + 30 + 31 + 31 + 30 + 31 + 30 + 31
  end.

Definition isLeap (year : Z) : bool :=
  (Z.rem year 4 =? 0) && (negb (Z.rem year 100 =? 0) || (Z.rem year 400 =? 0)).

Definition daysIn (m year : Z) : Z :=
  if (m =? 2) && isLeap year then 29 else daysBefore m - daysBefore (m - 1).

(** Days from the absolute epoch to January 1 of [year]. *)
Definition daysSinceEpoch (year : Z) : Z :=
  let y := year - absoluteZeroYear in
  let n := y / 400 in
  let y := y - 400 * n in
  let d := daysPer400Years * n in
  let n := y / 100 in
  let y := y - 100 * n in
  let d := d + daysPer100Years * n in
  let n := y / 4 in
  let y := y - 4 * n in
  let d := d + daysPer4Years * n in
  let n := y in
  d + 365 * n.

(** [time.Date(year, month, day, 0, 0, 0, 0, time.UTC)], for a month in
    1..12 and a day of that month (what [Parse] calls it with, so none of
    the normalisation steps of [Date] changes a field). *)
Definition Date (year month day : Z) : Time :=
  let d := daysSinceEpoch year in
  let d := d + daysBefore (month - 1) in
  let d := if isLeap year && (3 <=? month) then d + 1 else d in
  let d := d + (day - 1) in
  let abs := d * secondsPerDay in
  mkTime (abs + absoluteToInternal) 0.

(** [absDate(abs, true)]: year, month and day of an absolute time. *)
Definition absDate (abs : Z) : Z * Z * Z :=
  let d := abs / secondsPerDay in
  let n := d / daysPer400Years in
  let y := 400 * n in
  let d := d - daysPer400Years * n in
  let n := d / daysPer100Years in
  let n := n - Z.shiftr n 2 in
  let y := y + 100 * n in
  let d := d - daysPer100Years * n in
  let n := d / daysPer4Years in
  let y := y + 4 * n in
  let d := d - daysPer4Years * n in
  let n := d / 365 in
  let n := n - Z.shiftr n 2 in
  let y := y + n in
  let d := d - 365 * n in
  let year := y + absoluteZeroYear in
  let day := d in
  if isLeap year && (day =? 31 + 29 - 1) then (year, 2, 29)
  else
    let day := if isLeap year && (day >? 31 + 29 - 1) then day - 1 else day in
    let month := day / 31 in
    let end_ := daysBefore (month + 1) in
    if day >=? end_
    then (year, month + 1 + 1, day - end_ + 1)
    else (year, month + 1, day - daysBefore month + 1).

(** [t.Date()] for a time in UTC. *)
Definition date (t : Time) : Z * Z * Z := absDate (sec t + internalToAbsolute).

(** *** Parsing with the layout ["02-01-2006"] *)

(** [getnum(s, true)]: exactly two digits. *)
Definition getnum (s : string) : option (Z * string) :=
  match s with
  | String a (String b rest) =>
      if is_digit a && is_digit b
      then Some (digit_val a * 10 + digit_val b, rest)
      else None
  | _ => None
  end.

(** [skip(value, "-")] *)
Definition skip (value : string) : option string :=
  match value with
  | String "-" rest => Some rest
  | _ => None
  end.

(** The [stdLongYear] case: four bytes, all digits. *)
Definition getyear (value : string) : option (Z * string) :=
  match value with
  | String a (String b (String c (String d rest))) =>
      if is_digit a
      then year ← strconv.digits 0 (String a (String b (String c (String d EmptyString))));
           Some (year, rest)
      else None
  | _ => None
  end.

(** [time.Parse("02-01-2006", value)]; [None] stands for a non-nil
    error.  The result is midnight UTC of the parsed day. *)
Definition Parse (value : string) : option Time :=
  '(day, value) ← getnum value;
  value ← skip value;
  '(month, value) ← getnum value;
  if (month <=? 0) || (12 <? month) then None else
  value ← skip value;
  '(year, value) ← getyear value;
  if negb (String.eqb value EmptyString) then None else
  if (day <? 1) || (daysIn month year <? day) then None else
  Some (Date year month day).

(** *** Formatting with the layout ["02-01-2006"] *)

(** The [width] low decimal digits of [u], most significant first. *)
Fixpoint fixed_digits (width : nat) (u : Z) : string :=
  match width with
  | O => EmptyString
  | S w => fixed_digits w (u / 10) +:+ String (digit_char (u mod 10)) EmptyString
  end.

(** Number of decimal digits of a 64-bit [u] (0 for 0). *)
Fixpoint ndigits (fuel : nat) (u : Z) : nat :=
  match fuel with
  | O => O
  | S f => if u <=? 0 then O else S (ndigits f (u / 10))
  end.

(** [appendInt(nil, x, width)]: sign, then the decimal digits of [|x|]
    padded with zeros to at least [width] digits. *)
Definition appendInt (x : Z) (width : nat) : string :=
  let u := Z.abs x in
  (if x <? 0 then "-" else EmptyString) +:+ fixed_digits (Nat.max width (ndigits 20 u)) u.

(** [t.Format("02-01-2006")] for a time in UTC. *)
Definition Format (t : Time) : string :=
  let '(year, month, day) := date t in
  appendInt day 2 +:+ "-" +:+ appendInt month 2 +:+ "-" +:+ appendInt year 4.

End time.

(** ** Data model of [main.go] *)

(** The anonymous struct type of [Fund.Meta], [Response.Meta] and the
    [meta] parameter of [createSuccessResponse]. *)
Record FundMeta : Type := mkMeta {
  FundHouse : string;
  SchemeType : string;
  SchemeCategory : string;
  SchemeCode : Z;
  SchemeName : string
}.

(** The anonymous struct type of the elements of [Fund.Data]. *)
Record FundItem : Type := mkItem { item_Date : string; item_Nav : string }.

Record Fund : Type := mkFund { fund_Meta : FundMeta; fund_Data : list FundItem }.

Record DataPoint : Type := mkDataPoint { Date : string; Nav : string }.

(** [Period] carries the tag [json:"period,omitempty"]: the encoder emits
    the key exactly when the string is not empty. *)
Record Response : Type := mkResponse {
  Meta : FundMeta;
  Period : string;
  Data : list DataPoint
}.

#[global] Instance FundMeta_eq_dec : EqDecision FundMeta.
Proof. solve_decision. Defined.
#[global] Instance FundItem_eq_dec : EqDecision FundItem.
Proof. solve_decision. Defined.
#[global] Instance DataPoint_eq_dec : EqDecision DataPoint.
Proof. solve_decision. Defined.

(** The zero values [struct{...}{}] and [Fund{}]. *)
Definition zeroMeta : FundMeta := mkMeta EmptyString EmptyString EmptyString 0 EmptyString.
Definition zeroFund : Fund := mkFund zeroMeta [].

(** The fields of [events.APIGatewayProxyRequest] and
    [events.APIGatewayProxyResponse] that the handler reads or sets. *)
Record APIGatewayProxyRequest : Type := mkRequest {
  QueryStringParameters : gmap string string
}.

Record APIGatewayProxyResponse : Type := mkProxyResponse {
  StatusCode : Z;
  Headers : gmap string string;
  Body : string
}.

(** Indexing a Go map: the zero value for an absent key. *)
Definition map_index (m : gmap string string) (k : string) : string :=
  default EmptyString (m !! k).

(** ** The environment of one invocation

    [now] is the reading of [time.Now()].  [upstream url] is what the single
    [http.Get(url)] and the decoding of its body come to: a transport error
    with its text, or a response whose body was decoded into [fund], with
    the decoder's error if it reported one. *)
Inductive GetResult : Type :=
| GetErr (err : string)
| GetOk (fund : Fund) (decodeErr : option string).

Record World : Type := mkWorld {
  now : time.Time;
  upstream : string -> GetResult
}.

(** Computations that read the environment and log the calls of [http.Get],
    each with the URL it is given.  The log is of calls, not of the requests
    sent on the wire: one call of [http.Get] sends further requests when the
    upstream answers with a redirect, and [upstream url] is what the call
    returns in the end. *)
Definition IO (A : Type) : Type := World -> A * list string.

#[global] Instance IO_ret : MRet IO := fun A (a : A) (w : World) => (a, []).
#[global] Instance IO_bind : MBind IO := fun A B (k : A -> IO B) (m : IO A) (w : World) =>
  let '(a, t1) := m w in
  let '(b, t2) := k a w in
  (b, t1 ++ t2).

Definition time_Now : IO time.Time := fun w => (now w, []).
Definition http_Get (url : string) : IO GetResult := fun w => (upstream w url, [url]).

(** ** The functions of [main.go] *)

Definition baseURL : string := "https://api.mfapi.in/mf/".

Definition dquote : string := String (ascii_of_nat 34) EmptyString.

(** [isValidInteger] *)
Definition isValidInteger (value : string) : bool :=
  match strconv.Atoi value with
  | Some _ => true
  | None => false
  end.

(** [fetchFundData] *)
Definition fetchFundData (mutualFundID : string) : IO (Fund * option string) :=
  let url := baseURL +:+ mutualFundID in
  r ← http_Get url;
  match r with
  | GetErr err => mret (zeroFund, Some ("error fetching data from API: " +:+ err))
  | GetOk fund (Some err) => mret (fund, Some ("error decoding API response: " +:+ err))
  | GetOk fund None => mret (fund, None)
  end.

(** [parseDates] *)
Definition parseDates (startDate endDate : string) : time.Time * time.Time * option string :=
  match time.Parse startDate with
  | None => (time.zero, time.zero, Some "invalid start date format. use dd-mm-yyyy")
  | Some start =>
      match time.Parse endDate with
      | None => (time.zero, time.zero, Some "invalid end date format. use dd-mm-yyyy")
      | Some end_ => (start, end_, None)
      end
  end.

(** [validateAndParseDates] *)
Definition validateAndParseDates (startDate endDate : string)
  : IO (time.Time * time.Time * option string) :=
  if negb (String.eqb startDate EmptyString) && negb (String.eqb endDate EmptyString) then
    let '(start, end_, err) := parseDates startDate endDate in
    match err with
    | Some e => mret (time.zero, time.zero, Some e)
    | None =>
        t ← time_Now;
        if time.After end_ t then
          mret (time.zero, time.zero, Some "end date cannot be in the future")
        else if time.After start end_ then
          mret (time.zero, time.zero, Some "start date cannot be after end date")
        else mret (start, end_, None)
    end
  else if String.eqb startDate EmptyString && String.eqb endDate EmptyString then
    mret (time.zero, time.zero, None)
  else
    mret (time.zero, time.zero,
          Some "both start and end dates are required in the format dd-mm-yyyy").

(** The condition of the [if] in the loop of [filterData]. *)
Definition keep (date start end_ : time.Time) : bool :=
  (time.IsZero start && time.IsZero end_)
  || ((time.Equal date start || time.After date start)
      && (time.Equal date end_ || time.Before date end_)).

(** [filterData]: the loop appends to [filteredData], which starts nil. *)
Definition filterData (data : list FundItem) (start end_ : time.Time) : list DataPoint :=
  fold_left
    (fun filteredData item =>
       match time.Parse (item_Date item) with
       | None => filteredData
       | Some date =>
           if keep date start end_
           then filteredData ++ [mkDataPoint (item_Date item) (item_Nav item)]
           else filteredData
       end)
    data [].

(** [createSuccessResponse] *)
Definition createSuccessResponse (meta : FundMeta) (data : list DataPoint)
    (start end_ : time.Time) : Response :=
  let response := mkResponse meta EmptyString data in
  if negb (time.IsZero start) && negb (time.IsZero end_)
  then mkResponse (Meta response)
         (time.Format start +:+ " to " +:+ time.Format end_)
         (Data response)
  else response.

Definition jsonHeaders : gmap string string := {[ "Content-Type" := "application/json" ]}.

(** [createErrorResponse]: the message is spliced into the body as it is. *)
Definition createErrorResponse (statusCode : Z) (message : string)
  : APIGatewayProxyResponse * option string :=
  (mkProxyResponse statusCode jsonHeaders
     ("{" +:+ dquote +:+ "error" +:+ dquote +:+ ": " +:+ dquote +:+ message +:+ dquote +:+ "}"),
   None).

Section Handler.

(** [json.Marshal] applied to a [Response]: the encoded bytes and the
    error.  The encoder is left abstract: the handler only branches on its
    error, and both outcomes are kept as the code has them (for a struct of
    strings, an integer and a slice the encoder of Go reports none). *)
Variable json_Marshal : Response -> string * option string.

(** [Handler] (the unused [ctx] is left out). *)
Definition Handler (request : APIGatewayProxyRequest)
  : IO (APIGatewayProxyResponse * option string) :=
  let mutualFundID := map_index (QueryStringParameters request) "mutualFundID" in
  let startDate := map_index (QueryStringParameters request) "start" in
  let endDate := map_index (QueryStringParameters request) "end" in
  if String.eqb mutualFundID EmptyString then
    mret (createErrorResponse 400 "mutualFundID query parameter is required")
  else if negb (isValidInteger mutualFundID) then
    mret (createErrorResponse 400 "mutualFundID must be an integer")
  else
    '(start, end_, err) ← validateAndParseDates startDate endDate;
    match err with
    | Some e => mret (createErrorResponse 400 e)
    | None =>
        '(fund, err) ← fetchFundData mutualFundID;
        match err with
        | Some e => mret (createErrorResponse 500 e)
        | None =>
            if decide (fund_Meta fund = zeroMeta) then
              mret (createErrorResponse 400 "Invalid mutualFundID")
            else
              let filteredData := filterData (fund_Data fund) start end_ in
              let response :=
                createSuccessResponse (fund_Meta fund) filteredData start end_ in
              let '(jsonResponse, err) := json_Marshal response in
              match err with
              | Some _ => mret (createErrorResponse 500 "error creating JSON response")
              | None => mret (mkProxyResponse 200 jsonHeaders jsonResponse, None)
              end
        end
    end.

End Handler.

(** ** Reference notions used to state the properties *)

(** [t] is not after [u], as instants. *)
Definition time_leb (t u : time.Time) : bool :=
  (time.sec t <? time.sec u)
  || ((time.sec t =? time.sec u) && (time.nsec t <=? time.nsec u)).

Definition parseable (item : FundItem) : bool :=
  match time.Parse (item_Date item) with
  | Some _ => true
  | None => false
  end.

(** The date of the point parses and lies in [start, end_], ends included. *)
Definition in_range (start end_ : time.Time) (item : FundItem) : bool :=
  match time.Parse (item_Date item) with
  | Some d => time_leb start d && time_leb d end_
  | None => false
  end.

Definition toDataPoint (item : FundItem) : DataPoint :=
  mkDataPoint (item_Date item) (item_Nav item).

(** The subsequence of the upstream points selected by [p], in upstream
    order. *)
Definition subsequence (p : FundItem -> bool) (data : list FundItem) : list DataPoint :=
  map toDataPoint (List.filter p data).

(** Lines 97-108 of [Handler]: marshal the response and wrap it. *)
Definition marshalled (json_Marshal : Response -> string * option string)
    (response : Response) : APIGatewayProxyResponse * option string :=
  let '(jsonResponse, err) := json_Marshal response in
  match err with
  | Some _ => createErrorResponse 500 "error creating JSON response"
  | None => (mkProxyResponse 200 jsonHeaders jsonResponse, None)
  end.

(** The three query parameters of a request. *)
Definition idOf (request : APIGatewayProxyRequest) : string :=
  map_index (QueryStringParameters request) "mutualFundID".
Definition startOf (request : APIGatewayProxyRequest) : string :=
  map_index (QueryStringParameters request) "start".
Definition endOf (request : APIGatewayProxyRequest) : string :=
  map_index (QueryStringParameters request) "end".

(** The request passes the two checks on [mutualFundID]. *)
Definition parser_gate (request : APIGatewayProxyRequest) : bool :=
  negb (String.eqb (idOf request) EmptyString) && isValidInteger (idOf request).

(** Exactly one of the two dates is given. *)
Definition one_sided (startDate endDate : string) : Prop :=
  (startDate = EmptyString /\ endDate <> EmptyString)
  \/ (startDate <> EmptyString /\ endDate = EmptyString).

(** ** JSON documents of the shape [{"error": <string>}] (RFC 8259)

    A recogniser for the error documents the response contract promises:
    optional white space around the tokens, one member named [error], a
    string value.  It returns the decoded value of the member.

    The recogniser is lenient on two points: bytes from 128 on are taken as
    they are, without a check that they form UTF-8, and every [\u] escape is
    decoded on its own, surrogates unpaired.  So what it refuses is no JSON
    document for any decoder, and on ASCII text without [\u] escapes it
    accepts and decodes as RFC 8259 says. *)
Module rfc8259.

Definition is_ws (c : ascii) : bool :=
  let n := byte_val c in (n =? 32) || (n =? 9) || (n =? 10) || (n =? 13).

Fixpoint skip_ws (s : string) : string :=
  match s with
  | String c rest => if is_ws c then skip_ws rest else s
  | EmptyString => s
  end.

Definition hex_val (c : ascii) : option Z :=
  let n := byte_val c in
  if (48 <=? n) && (n <=? 57) then Some (n - 48)
  else if (65 <=? n) && (n <=? 70) then Some (n - 55)
  else if (97 <=? n) && (n <=? 102) then Some (n - 87)
  else None.

Definition byte_of (n : Z) : ascii := ascii_of_N (Z.to_N n).

(** UTF-8 bytes of a code unit below 0x10000. *)
Definition utf8 (n : Z) : string :=
  if n <? 128 then String (byte_of n) EmptyString
  else if n <? 2048 then
    String (byte_of (192 + n / 64)) (String (byte_of (128 + n mod 64)) EmptyString)
  else
    String (byte_of (224 + n / 4096))
      (String (byte_of (128 + (n / 64) mod 64))
         (String (byte_of (128 + n mod 64)) EmptyString)).

(** The byte a two-character escape stands for. *)
Definition simple_escape (c : ascii) : option ascii :=
  let n := byte_val c in
  if n =? 34 then Some (byte_of 34)            (* quotation mark *)
  else if n =? 92 then Some (byte_of 92)       (* reverse solidus *)
  else if n =? 47 then Some (byte_of 47)       (* solidus *)
  else if n =? 98 then Some (byte_of 8)
  else if n =? 102 then Some (byte_of 12)
  else if n =? 110 then Some (byte_of 10)
  else if n =? 114 then Some (byte_of 13)
  else if n =? 116 then Some (byte_of 9)
  else None.

(** The characters of a string literal after its opening quotation mark:
    the decoded value and what follows the closing quotation mark. *)
Fixpoint string_body (s : string) : option (string * string) :=
  match s with
  | EmptyString => None
  | String c rest =>
      if byte_val c =? 34 then Some (EmptyString, rest)
      else if byte_val c =? 92 then
        match rest with
        | String e rest1 =>
            if byte_val e =? 117 then
              match rest1 with
              | String h1 (String h2 (String h3 (String h4 rest2))) =>
                  a ← hex_val h1; b ← hex_val h2; c ← hex_val h3; d ← hex_val h4;
                  '(v, r) ← string_body rest2;
                  Some (utf8 (((a * 16 + b) * 16 + c) * 16 + d) +:+ v, r)
              | _ => None
              end
            else
              ch ← simple_escape e;
              '(v, r) ← string_body rest1;
              Some (String ch v, r)
        | EmptyString => None
        end
      else if byte_val c <? 32 then None
      else '(v, r) ← string_body rest; Some (String c v, r)
  end.

(** A string literal at the head of [s]. *)
Definition string_literal (s : string) : option (string * string) :=
  match s with
  | String c rest => if byte_val c =? 34 then string_body rest else None
  | EmptyString => None
  end.

Definition expect (c : Z) (s : string) : option string :=
  match skip_ws s with
  | String c' rest => if byte_val c' =? c then Some rest else None
  | EmptyString => None
  end.

(** [error_document body = Some m]: [body] is a JSON object with the one
    member [error], whose value is the string [m]. *)
Definition error_document (body : string) : option string :=
  r ← expect 123 body;
  '(k, r) ← string_literal (skip_ws r);
  if negb (String.eqb k "error") then None else
  r ← expect 58 r;
  '(v, r) ← string_literal (skip_ws r);
  r ← expect 125 r;
  match skip_ws r with
  | EmptyString => Some v
  | _ => None
  end.

End rfc8259.

(** The pipeline with its gates in the order the specification lists them:
    Parser, Fetcher, Metadata check, Range validation, Filter, Build. *)
Definition Handler_spec_order (json_Marshal : Response -> string * option string)
    (request : APIGatewayProxyRequest) : IO (APIGatewayProxyResponse * option string) :=
  let mutualFundID := idOf request in
  if String.eqb mutualFundID EmptyString then
    mret (createErrorResponse 400 "mutualFundID query parameter is required")
  else if negb (isValidInteger mutualFundID) then
    mret (createErrorResponse 400 "mutualFundID must be an integer")
  else
    '(fund, err) ← fetchFundData mutualFundID;
    match err with
    | Some e => mret (createErrorResponse 500 e)
    | None =>
        if decide (fund_Meta fund = zeroMeta) then
          mret (createErrorResponse 400 "Invalid mutualFundID")
        else
          '(start, end_, err) ← validateAndParseDates (startOf request) (endOf request);
          match err with
          | Some e => mret (createErrorResponse 400 e)
          | None =>
              mret (marshalled json_Marshal
                      (createSuccessResponse (fund_Meta fund)
                         (filterData (fund_Data fund) start end_) start end_))
          end
    end.

(** What the handler returns once the dates have been validated. *)
Definition after_dates (json_Marshal : Response -> string * option string)
    (mutualFundID : string) (start end_ : time.Time) (w : World)
  : APIGatewayProxyResponse * option string * list string :=
  let url := baseURL +:+ mutualFundID in
  match upstream w url with
  | GetErr err =>
      (createErrorResponse 500 ("error fetching data from API: " +:+ err), [url])
  | GetOk fund (Some err) =>
      (createErrorResponse 500 ("error decoding API response: " +:+ err), [url])
  | GetOk fund None =>
      if decide (fund_Meta fund = zeroMeta)
      then (createErrorResponse 400 "Invalid mutualFundID", [url])
      else (marshalled json_Marshal
              (createSuccessResponse (fund_Meta fund)
                 (filterData (fund_Data fund) start end_) start end_), [url])
  end.

(** ** Concrete inputs *)

Definition mkQuery (mutualFundID startDate endDate : string) : APIGatewayProxyRequest :=
  mkRequest (<["mutualFundID" := mutualFundID]>
              (<["start" := startDate]> {["end" := endDate]})).

(** A request that carries only the listed parameters. *)
Definition mkQueryOf (params : list (string * string)) : APIGatewayProxyRequest :=
  mkRequest (list_to_map params).

Definition ex_data : list FundItem :=
  [mkItem "15-01-2023" "10.5"; mkItem "28-02-2023" "11"; mkItem "02-01-2023" "10"].

Definition ex_meta : FundMeta :=
  mkMeta "Example Mutual Fund" "Open Ended Schemes" "Equity Scheme" 119598 "Example Growth".

(** 29 November 2025, 08:00 UTC. *)
Definition ex_now : time.Time := time.mkTime 63900000000 0.

Definition ex_world : World := mkWorld ex_now (fun _ => GetOk (mkFund ex_meta ex_data) None).

(** An encoder that never fails, good enough to tell responses apart. *)
Definition toy_Marshal (r : Response) : string * option string :=
  (SchemeName (Meta r) +:+ "|" +:+ Period r +:+ "|" +:+ String.concat "," (map Date (Data r)), None).

(** The upstream's answer for an unknown fund id: empty metadata. *)
Definition empty_meta_world : World :=
  mkWorld ex_now (fun _ => GetOk (mkFund zeroMeta ex_data) None).

(** Upstream data with one date in another format. *)
Definition noisy_data : list FundItem :=
  [mkItem "15-01-2023" "10.5"; mkItem "2023-02-28" "11"; mkItem "02-01-2023" "10"].

Definition noisy_world : World :=
  mkWorld ex_now (fun _ => GetOk (mkFund ex_meta noisy_data) None).

(** The transport error of a refused name lookup: [http.Get] returns a
    [*url.Error], whose text quotes the URL. *)
Definition unreachable_error : string :=
  "Get " +:+ dquote +:+ "https://api.mfapi.in/mf/119598" +:+ dquote
  +:+ ": dial tcp: lookup api.mfapi.in: no such host".

Definition unreachable_world : World := mkWorld ex_now (fun _ => GetErr unreachable_error).

(** A request with a one-sided range. *)
Definition one_sided_request : APIGatewayProxyRequest :=
  mkQueryOf [("mutualFundID", "119598"); ("start", "01-01-2023")].

(** ** Auxiliary definitions for the proofs *)

(** Year and day of the year: the first half of [time.absDate], on days. *)
Definition yearDay (d : Z) : Z * Z :=
  let n := d / time.daysPer400Years in
  let y := 400 * n in
  let d := d - time.daysPer400Years * n in
  let n := d / time.daysPer100Years in
  let n := n - Z.shiftr n 2 in
  let y := y + 100 * n in
  let d := d - time.daysPer100Years * n in
  let n := d / time.daysPer4Years in
  let y := y + 4 * n in
  let d := d - time.daysPer4Years * n in
  let n := d / 365 in
  let n := n - Z.shiftr n 2 in
  let y := y + n in
  let d := d - 365 * n in
  (y + time.absoluteZeroYear, d).

(** Month and day of the month: the second half of [time.absDate]. *)
Definition monthDay (leap : bool) (day : Z) : Z * Z :=
  if leap && (day =? 31 + 29 - 1) then (2, 29)
  else
    let day := if leap && (day >? 31 + 29 - 1) then day - 1 else day in
    let month := day / 31 in
    let end_ := time.daysBefore (month + 1) in
    if day >=? end_
    then (month + 1 + 1, day - end_ + 1)
    else (month + 1, day - time.daysBefore month + 1).

Definition Zrange (lo n : nat) : list Z := map Z.of_nat (seq lo n).

(** [monthDay] inverts the day-of-year computation of [time.Date] at
    ([month], [day]), when that is a day of the month. *)
Definition monthDay_ok (leap : bool) (month day : Z) : bool :=
  if day <=? time.daysIn month (if leap then 2024 else 2023) then
    let yd := time.daysBefore (month - 1)
              + (if leap && (3 <=? month) then 1 else 0) + (day - 1) in
    let '(m, d) := monthDay leap yd in
    (m =? month) && (d =? day)
    && (yd <? 365 + (if leap then 1 else 0)) && (0 <=? yd)
  else true.

(** Bytes that a JSON string literal holds as they are. *)
Definition plain_char (c : ascii) : bool :=
  negb (byte_val c =? 34) && negb (byte_val c =? 92) && negb (byte_val c <? 32).

Definition plain_message (message : string) : bool :=
  forallb plain_char (list_ascii_of_string message).

(** The messages of the handler that embed no upstream text. *)
Definition fixed_messages : list string :=
  [ "mutualFundID query parameter is required";
    "mutualFundID must be an integer";
    "invalid start date format. use dd-mm-yyyy";
    "invalid end date format. use dd-mm-yyyy";
    "end date cannot be in the future";
    "start date cannot be after end date";
    "both start and end dates are required in the format dd-mm-yyyy";
    "Invalid mutualFundID";
    "error creating JSON response" ].

(** ** Further notions, for the properties of the code *)

(** What [strconv.Atoi] reads after the optional sign. *)
Definition unsigned_part (s : string) : string :=
  match s with
  | String "-" rest => rest
  | String "+" rest => rest
  | _ => s
  end.

Definition all_digits (s : string) : bool :=
  forallb is_digit (list_ascii_of_string s).

(** A returned point, read again as an upstream item. *)
Definition toFundItem (p : DataPoint) : FundItem := mkItem (Date p) (Nav p).

(** The date of a returned point parses. *)
Definition dated (p : DataPoint) : Prop := time.Parse (Date p) <> None.

(** The messages that range validation can return. *)
Definition date_messages : list string :=
  [ "invalid start date format. use dd-mm-yyyy";
    "invalid end date format. use dd-mm-yyyy";
    "end date cannot be in the future";
    "start date cannot be after end date";
    "both start and end dates are required in the format dd-mm-yyyy" ].

(** The messages of the responses with status 400. *)
Definition client_messages : list string :=
  [ "mutualFundID query parameter is required";
    "mutualFundID must be an integer";
    "Invalid mutualFundID" ] ++ date_messages.

(** The same environment with another reading of the clock. *)
Definition at_time (t : time.Time) (w : World) : World := mkWorld t (upstream w).

(** 1 March 2030, 00:00 UTC. *)
Definition later_now : time.Time := time.mkTime 64035100800 0.


(** The condition of [filterData] on an upstream item. *)
Definition kept (start end_ : time.Time) (item : FundItem) : bool :=
  match time.Parse (item_Date item) with
  | Some date => keep date start end_
  | None => false
  end.

(** January 2023, and the year 2023. *)
Definition jan_start : time.Time := time.mkTime 63808128000 0.
Definition jan_end : time.Time := time.mkTime 63810720000 0.
Definition year_start : time.Time := time.mkTime 63808128000 0.
Definition year_end : time.Time := time.mkTime 63839577600 0.

(** The text of the document [{"error": "<message>"}], written out. *)
Definition error_body (message : string) : string :=
  "{" +:+ dquote +:+ "error" +:+ dquote +:+ ": " +:+ dquote +:+ message +:+ dquote +:+ "}".

(** The header map of every response, written out. *)
Definition json_content_type : gmap string string :=
  {[ "Content-Type" := "application/json" ]}.

Definition all_ascii (s : string) : bool :=
  forallb (fun c => byte_val c <? 128) (list_ascii_of_string s).

(** * Properties *)

(** ** The library models on concrete inputs *)

Example Atoi_decimal : strconv.Atoi "119598" = Some 119598.
Proof. reflexivity. Qed.

Example Atoi_signed : strconv.Atoi "-42" = Some (-42) /\ strconv.Atoi "+42" = Some 42.
Proof. split; reflexivity. Qed.

Example Atoi_rejects :
  strconv.Atoi EmptyString = None /\ strconv.Atoi "-" = None
  /\ strconv.Atoi "12a" = None /\ strconv.Atoi "1_000" = None
  /\ strconv.Atoi " 7" = None.
Proof. repeat split; reflexivity. Qed.

Example Atoi_range :
  strconv.Atoi "9223372036854775807" = Some 9223372036854775807
  /\ strconv.Atoi "9223372036854775808" = None
  /\ strconv.Atoi "-9223372036854775808" = Some (-9223372036854775808)
  /\ strconv.Atoi "-9223372036854775809" = None.
Proof. repeat split; reflexivity. Qed.

Example Parse_internal_epoch : time.Parse "01-01-0001" = Some time.zero.
Proof. reflexivity. Qed.

Example Parse_unix_epoch : time.Parse "01-01-1970" = Some (time.mkTime 62135596800 0).
Proof. reflexivity. Qed.

Example Parse_rejects :
  time.Parse "29-02-2023" = None /\ time.Parse "31-04-2023" = None
  /\ time.Parse "00-01-2023" = None /\ time.Parse "01-13-2023" = None
  /\ time.Parse "1-1-2023" = None /\ time.Parse "2023-01-15" = None
  /\ time.Parse "15-01-2023 " = None /\ time.Parse "15/01/2023" = None
  /\ time.Parse "15-01-23" = None.
Proof. repeat split; reflexivity. Qed.

Example Parse_leap_days :
  time.Parse "29-02-2024" = Some (time.mkTime 63844761600 0)
  /\ time.Parse "29-02-2000" = Some (time.mkTime 63087379200 0)
  /\ time.Parse "29-02-1900" = None.
Proof. repeat split; reflexivity. Qed.

Example Format_unix_epoch : time.Format (time.mkTime 62135596800 0) = "01-01-1970".
Proof. reflexivity. Qed.

Example Format_ignores_time_of_day : time.Format ex_now = "29-11-2025".
Proof. reflexivity. Qed.

(** The example of the specification: the points of January 2023, in
    upstream order, and the period label. *)
Example Handler_spec_example :
  Handler toy_Marshal (mkQuery "119598" "01-01-2023" "31-01-2023") ex_world
  = (mkProxyResponse 200 jsonHeaders
       "Example Growth|01-01-2023 to 31-01-2023|15-01-2023,02-01-2023", None,
     ["https://api.mfapi.in/mf/119598"]).
Proof. vm_compute. reflexivity. Qed.

Example error_document_of_fixed_message :
  rfc8259.error_document (Body (fst (createErrorResponse 400 "Invalid mutualFundID")))
  = Some "Invalid mutualFundID".
Proof. reflexivity. Qed.

Example error_document_with_escapes :
  rfc8259.error_document
    ("{ " +:+ dquote +:+ "error" +:+ dquote +:+ " :" +:+ dquote
     +:+ "a\" +:+ dquote +:+ "b\u0041" +:+ dquote +:+ " } ")
  = Some ("a" +:+ dquote +:+ "bA").
Proof. reflexivity. Qed.

(** ** [time.Format] after [time.Parse] *)

(** The quotient of a division, from a bracket of the dividend. *)
Lemma div_eq (a b q : Z) : 0 < b -> b * q <= a < b * q + b -> a / b = q.
Proof. intros Hb H. symmetry. apply (Z.div_unique a b q (a - b * q)); lia. Qed.

(** [n -= n >> 2] turns the 4 of the last day of a cycle into 3. *)
Lemma quarter_cut (n : Z) : 0 <= n <= 4 -> n - Z.shiftr n 2 = Z.min n 3.
Proof.
  intros H. rewrite Z.shiftr_div_pow2 by lia. change (2 ^ 2) with 4.
  assert (n = 0 \/ n = 1 \/ n = 2 \/ n = 3 \/ n = 4) as [->|[->|[->|[->| ->]]]] by lia;
    reflexivity.
Qed.

Lemma absDate_split (abs : Z) :
  time.absDate abs =
  let '(year, yday) := yearDay (abs / time.secondsPerDay) in
  let '(month, day) := monthDay (time.isLeap year) yday in
  (year, month, day).
Proof.
  unfold time.absDate, yearDay, monthDay. cbv zeta.
  destruct (time.isLeap _ && (_ =? _)); [reflexivity|].
  destruct (_ >=? _); reflexivity.
Qed.

(** [yearDay] on a day count written in whole cycles of 400, 100, 4 and 1
    years: the last day of a leap year sits at the end of a 4-year cycle
    that is not the last of its century, or at the end of the 400 years. *)
Lemma yearDay_cycles (a b c e yd : Z) :
  0 <= b <= 3 -> 0 <= c <= 24 -> 0 <= e <= 3 -> 0 <= yd ->
  yd < 365 \/ (yd = 365 /\ e = 3 /\ (c <> 24 \/ b = 3)) ->
  yearDay (146097 * a + 36524 * b + 1461 * c + 365 * e + yd)
  = (400 * a + 100 * b + 4 * c + e + time.absoluteZeroYear, yd).
Proof.
  intros Hb Hc He Hyd Hleap. unfold yearDay.
  change time.daysPer400Years with 146097.
  change time.daysPer100Years with 36524.
  change time.daysPer4Years with 1461.
  cbv zeta.
  rewrite (div_eq (146097 * a + 36524 * b + 1461 * c + 365 * e + yd) 146097 a) by lia.
  replace (146097 * a + 36524 * b + 1461 * c + 365 * e + yd - 146097 * a)
    with (36524 * b + 1461 * c + 365 * e + yd) by ring.
  assert (E2 : (36524 * b + 1461 * c + 365 * e + yd) / 36524
               - Z.shiftr ((36524 * b + 1461 * c + 365 * e + yd) / 36524) 2 = b).
  { destruct (Z_lt_ge_dec (1461 * c + 365 * e + yd) 36524) as [Hlt|Hge].
    - rewrite (div_eq _ 36524 b) by lia. rewrite quarter_cut by lia. lia.
    - rewrite (div_eq _ 36524 (b + 1)) by lia. rewrite quarter_cut by lia. lia. }
  rewrite E2.
  replace (36524 * b + 1461 * c + 365 * e + yd - 36524 * b)
    with (1461 * c + 365 * e + yd) by ring.
  rewrite (div_eq (1461 * c + 365 * e + yd) 1461 c) by lia.
  replace (1461 * c + 365 * e + yd - 1461 * c) with (365 * e + yd) by ring.
  assert (E4 : (365 * e + yd) / 365 - Z.shiftr ((365 * e + yd) / 365) 2 = e).
  { destruct (Z_lt_ge_dec yd 365) as [Hlt|Hge].
    - rewrite (div_eq _ 365 e) by lia. rewrite quarter_cut by lia. lia.
    - rewrite (div_eq _ 365 (e + 1)) by lia. rewrite quarter_cut by lia. lia. }
  rewrite E4. f_equal; ring.
Qed.

Lemma isLeap_spec (year : Z) :
  0 <= year ->
  time.isLeap year = true
  <-> (year mod 4 = 0 /\ (year mod 100 <> 0 \/ year mod 400 = 0)).
Proof.
  intros H. unfold time.isLeap. rewrite !Z.rem_mod_nonneg by lia.
  rewrite andb_true_iff, orb_true_iff, negb_true_iff, !Z.eqb_eq, Z.eqb_neq. tauto.
Qed.

(** [yearDay] inverts [time.daysSinceEpoch] on the days of a year. *)
Lemma yearDay_daysSinceEpoch (year yd : Z) :
  0 <= year -> 0 <= yd ->
  yd < 365 + (if time.isLeap year then 1 else 0) ->
  yearDay (time.daysSinceEpoch year + yd) = (year, yd).
Proof.
  intros Hy H0 H1.
  unfold time.daysSinceEpoch. cbv zeta.
  change time.daysPer400Years with 146097.
  change time.daysPer100Years with 36524.
  change time.daysPer4Years with 1461.
  change time.absoluteZeroYear with (-292277022399).
  set (Y := year - -292277022399).
  set (a := Y / 400).
  set (r := Y - 400 * a).
  set (b := r / 100).
  set (r2 := r - 100 * b).
  set (c := r2 / 4).
  set (e := r2 - 4 * c).
  assert (Hr : 0 <= r < 400) by (subst r a; Z.to_euclidean_division_equations; lia).
  assert (Hb : 0 <= b <= 3) by (subst b; Z.to_euclidean_division_equations; lia).
  assert (Hr2 : 0 <= r2 < 100) by (subst r2 b; Z.to_euclidean_division_equations; lia).
  assert (Hc : 0 <= c <= 24) by (subst c; Z.to_euclidean_division_equations; lia).
  assert (He : 0 <= e <= 3) by (subst e c; Z.to_euclidean_division_equations; lia).
  assert (HY : year = 400 * a + 100 * b + 4 * c + e + time.absoluteZeroYear).
  { change time.absoluteZeroYear with (-292277022399). subst e r2 r Y. lia. }
  rewrite yearDay_cycles; try assumption.
  - now rewrite <- HY.
  - destruct (time.isLeap year) eqn:HL; [|left; lia].
    apply isLeap_spec in HL as [H4 H100]; [|assumption].
    destruct (Z_lt_ge_dec yd 365); [left; assumption|right].
    change time.absoluteZeroYear with (-292277022399) in HY.
    assert (He3 : e = 3).
    { clear H100. Z.to_euclidean_division_equations. lia. }
    split; [lia|]. split; [assumption|].
    destruct (Z.eq_dec c 24) as [Hc24|]; [|left; assumption]. right.
    destruct H100 as [H100|H400].
    + exfalso. apply H100. clear H100 H4.
      symmetry. apply (Z.mod_unique year 100 (4 * a + b - 2922770223) 0); lia.
    + clear H4. Z.to_euclidean_division_equations. lia.
Qed.

Lemma Zrange_In (lo n : nat) (z : Z) :
  Z.of_nat lo <= z < Z.of_nat lo + Z.of_nat n -> In z (Zrange lo n).
Proof.
  intros H. unfold Zrange. apply in_map_iff. exists (Z.to_nat z).
  split; [lia|]. apply in_seq. lia.
Qed.

(** Every day of every month, in leap and non-leap years, by evaluation. *)
Lemma monthDay_table :
  forallb (fun leap =>
    forallb (fun month =>
      forallb (fun day => monthDay_ok leap month day) (Zrange 1 31))
      (Zrange 1 12)) [true; false] = true.
Proof. vm_compute. reflexivity. Qed.

Lemma daysIn_leap (month year : Z) :
  time.daysIn month year = time.daysIn month (if time.isLeap year then 2024 else 2023).
Proof. unfold time.daysIn. now destruct (time.isLeap year). Qed.

Lemma monthDay_daysBefore (year month day : Z) :
  1 <= month <= 12 -> 1 <= day <= time.daysIn month year ->
  let yd := time.daysBefore (month - 1)
            + (if time.isLeap year && (3 <=? month) then 1 else 0) + (day - 1) in
  monthDay (time.isLeap year) yd = (month, day)
  /\ 0 <= yd < 365 + (if time.isLeap year then 1 else 0).
Proof.
  intros Hm Hd.
  assert (Hd31 : day <= 31).
  { rewrite daysIn_leap in Hd. unfold time.daysIn in Hd.
    assert (month = 1 \/ month = 2 \/ month = 3 \/ month = 4 \/ month = 5 \/ month = 6
            \/ month = 7 \/ month = 8 \/ month = 9 \/ month = 10 \/ month = 11
            \/ month = 12) as Hcases by lia.
    destruct (time.isLeap year);
      repeat (destruct Hcases as [->|Hcases]; [simpl in Hd; lia|]);
      subst; simpl in Hd; lia. }
  pose proof monthDay_table as T.
  rewrite forallb_forall in T.
  assert (Hin : In (time.isLeap year) [true; false]).
  { destruct (time.isLeap year); simpl; auto. }
  specialize (T _ Hin). rewrite forallb_forall in T.
  specialize (T month (Zrange_In 1 12 month ltac:(lia))).
  rewrite forallb_forall in T.
  specialize (T day (Zrange_In 1 31 day ltac:(lia))).
  unfold monthDay_ok in T. rewrite <- daysIn_leap in T.
  destruct (Z.leb_spec day (time.daysIn month year)) as [_|]; [|lia].
  cbv zeta in *.
  destruct (monthDay _ _) as [m d].
  rewrite !andb_true_iff, !Z.eqb_eq, Z.ltb_lt, Z.leb_le in T.
  destruct T as [[[-> ->] ?] ?]. split; [reflexivity|lia].
Qed.

(** The calendar date of [time.Date year month day] is the one given. *)
Lemma date_Date (year month day : Z) :
  0 <= year -> 1 <= month <= 12 -> 1 <= day <= time.daysIn month year ->
  time.date (time.Date year month day) = (year, month, day).
Proof.
  intros Hy Hm Hd.
  destruct (monthDay_daysBefore year month day Hm Hd) as [Hmd Hyd].
  cbv zeta in Hmd, Hyd.
  unfold time.date, time.Date. cbv zeta. simpl time.sec.
  rewrite absDate_split.
  set (yd := time.daysBefore (month - 1)
             + (if time.isLeap year && (3 <=? month) then 1 else 0) + (day - 1)) in *.
  replace ((_ * time.secondsPerDay + time.absoluteToInternal + time.internalToAbsolute)
             / time.secondsPerDay)
    with (time.daysSinceEpoch year + yd).
  - rewrite yearDay_daysSinceEpoch by lia. rewrite Hmd. reflexivity.
  - unfold time.internalToAbsolute.
    match goal with
    | |- _ = (?x * _ + ?k + - ?k) / _ =>
        replace (x * time.secondsPerDay + k + - k) with (x * time.secondsPerDay) by ring;
        rewrite Z.div_mul by discriminate
    end.
    subst yd. destruct (time.isLeap year && (3 <=? month)); lia.
Qed.

(** Decimal digits and their characters. *)
Lemma is_digit_spec (c : ascii) :
  is_digit c = true -> 0 <= digit_val c <= 9 /\ digit_char (digit_val c) = c.
Proof.
  unfold is_digit, digit_val, digit_char. intros H.
  apply andb_true_iff in H as [H1 H2]. apply Z.leb_le in H1, H2.
  split; [lia|].
  replace (48 + (byte_val c - 48)) with (byte_val c) by ring.
  unfold byte_val. rewrite N2Z.id. apply ascii_N_embedding.
Qed.

Lemma ndigits_le (fuel : nat) : forall (k : nat) (u : Z),
  0 <= u < 10 ^ Z.of_nat k -> (time.ndigits fuel u <= k)%nat.
Proof.
  induction fuel as [|fuel IH]; intros k u Hu; simpl; [lia|].
  destruct (Z.leb_spec u 0); [lia|].
  destruct k as [|k]; [simpl in Hu; lia|].
  apply le_n_S, IH.
  rewrite Nat2Z.inj_succ, Z.pow_succ_r in Hu by lia.
  Z.to_euclidean_division_equations. lia.
Qed.

(** A non-negative number that fits [width] digits is padded to [width]. *)
Lemma appendInt_fixed (x : Z) (width : nat) :
  0 <= x < 10 ^ Z.of_nat width ->
  time.appendInt x width = time.fixed_digits width x.
Proof.
  intros Hx. unfold time.appendInt.
  destruct (Z.ltb_spec x 0); [lia|].
  rewrite Z.abs_eq by lia.
  rewrite Nat.max_l by (apply ndigits_le; assumption).
  reflexivity.
Qed.

Lemma fixed_digits_2 (a b : ascii) :
  is_digit a = true -> is_digit b = true ->
  time.appendInt (digit_val a * 10 + digit_val b) 2 = String a (String b EmptyString).
Proof.
  intros Ha Hb.
  destruct (is_digit_spec a Ha) as [Ra Ea], (is_digit_spec b Hb) as [Rb Eb].
  rewrite appendInt_fixed by (simpl; lia). simpl.
  replace (((digit_val a * 10 + digit_val b) / 10) mod 10) with (digit_val a)
    by (Z.to_euclidean_division_equations; lia).
  replace ((digit_val a * 10 + digit_val b) mod 10) with (digit_val b)
    by (Z.to_euclidean_division_equations; lia).
  now rewrite Ea, Eb.
Qed.

Lemma fixed_digits_4 (a b c d : ascii) :
  is_digit a = true -> is_digit b = true -> is_digit c = true -> is_digit d = true ->
  let year := 10 * (10 * (10 * (10 * 0 + digit_val a) + digit_val b) + digit_val c)
              + digit_val d in
  0 <= year <= 9999
  /\ time.appendInt year 4 = String a (String b (String c (String d EmptyString))).
Proof.
  intros Ha Hb Hc Hd.
  destruct (is_digit_spec a Ha) as [Ra Ea], (is_digit_spec b Hb) as [Rb Eb],
    (is_digit_spec c Hc) as [Rc Ec], (is_digit_spec d Hd) as [Rd Ed].
  cbv zeta. split; [lia|].
  rewrite appendInt_fixed by (simpl; lia). simpl.
  set (y := 10 * (10 * (10 * (10 * 0 + digit_val a) + digit_val b) + digit_val c)
            + digit_val d).
  replace ((y / 10 / 10 / 10) mod 10) with (digit_val a)
    by (subst y; Z.to_euclidean_division_equations; lia).
  replace ((y / 10 / 10) mod 10) with (digit_val b)
    by (subst y; Z.to_euclidean_division_equations; lia).
  replace ((y / 10) mod 10) with (digit_val c)
    by (subst y; Z.to_euclidean_division_equations; lia).
  replace (y mod 10) with (digit_val d)
    by (subst y; Z.to_euclidean_division_equations; lia).
  now rewrite Ea, Eb, Ec, Ed.
Qed.

(** Formatting a parsed date gives back the string that was parsed. *)
Lemma Format_Parse (value : string) (t : time.Time) :
  time.Parse value = Some t -> time.Format t = value.
Proof.
  unfold time.Parse, time.getnum, time.skip, time.getyear.
  destruct value as [|d1 [|d2 value]]; try discriminate.
  destruct (is_digit d1) eqn:Hd1; [|discriminate].
  destruct (is_digit d2) eqn:Hd2; [|discriminate].
  simpl.
  destruct value as [|dash1 value]; [discriminate|].
  destruct (Ascii.eqb_spec dash1 "-") as [->|];
    [|destruct dash1 as [[] [] [] [] [] [] [] []]; try discriminate; congruence].
  simpl.
  destruct value as [|m1 [|m2 value]]; try discriminate.
  destruct (is_digit m1) eqn:Hm1; [|discriminate].
  destruct (is_digit m2) eqn:Hm2; [|discriminate].
  simpl.
  destruct ((digit_val m1 * 10 + digit_val m2 <=? 0)
            || (12 <? digit_val m1 * 10 + digit_val m2)) eqn:Hmonth; [discriminate|].
  destruct value as [|dash2 value]; [discriminate|].
  destruct (Ascii.eqb_spec dash2 "-") as [->|];
    [|destruct dash2 as [[] [] [] [] [] [] [] []]; try discriminate; congruence].
  simpl.
  destruct value as [|y1 [|y2 [|y3 [|y4 value]]]]; try discriminate.
  destruct (is_digit y1) eqn:Hy1; [|discriminate].
  simpl.
  destruct (is_digit y2) eqn:Hy2; [|discriminate].
  destruct (is_digit y3) eqn:Hy3; [|discriminate].
  destruct (is_digit y4) eqn:Hy4; [|discriminate].
  simpl.
  destruct (String.eqb_spec value EmptyString) as [->|]; [|discriminate].
  simpl.
  destruct (fixed_digits_4 y1 y2 y3 y4 Hy1 Hy2 Hy3 Hy4) as [Hyear Hfy].
  cbv zeta in Hyear, Hfy.
  set (year := 10 * (10 * (10 * (10 * 0 + digit_val y1) + digit_val y2) + digit_val y3)
               + digit_val y4) in *.
  set (month := digit_val m1 * 10 + digit_val m2) in *.
  set (day := digit_val d1 * 10 + digit_val d2) in *.
  destruct ((day <? 1) || (time.daysIn month year <? day)) eqn:Hday; [discriminate|].
  intros [= <-].
  apply orb_false_iff in Hmonth as [Hmo1 Hmo2], Hday as [Hda1 Hda2].
  apply Z.leb_gt in Hmo1. apply Z.ltb_ge in Hmo2, Hda1, Hda2.
  unfold time.Format. rewrite date_Date by lia.
  subst day month. rewrite !fixed_digits_2, Hfy by assumption.
  reflexivity.
Qed.

(** ** Parsed times carry no time of day *)

Lemma Parse_is_Date (value : string) (t : time.Time) :
  time.Parse value = Some t -> exists year month day, t = time.Date year month day.
Proof.
  unfold time.Parse. intros H.
  destruct (time.getnum value) as [[day r1]|]; simpl in H; [|discriminate].
  destruct (time.skip r1) as [r2|]; simpl in H; [|discriminate].
  destruct (time.getnum r2) as [[month r3]|]; simpl in H; [|discriminate].
  destruct ((month <=? 0) || (12 <? month)); [discriminate|].
  destruct (time.skip r3) as [r4|]; simpl in H; [|discriminate].
  destruct (time.getyear r4) as [[year r5]|]; simpl in H; [|discriminate].
  destruct (negb (String.eqb r5 EmptyString)); [discriminate|].
  destruct ((day <? 1) || (time.daysIn month year <? day)); [discriminate|].
  injection H as <-. eauto.
Qed.

(** A parsed time is a midnight, UTC: the comparisons of [filterData]
    compare days. *)
Lemma Parse_midnight (value : string) (t : time.Time) :
  time.Parse value = Some t ->
  time.nsec t = 0 /\ time.sec t mod time.secondsPerDay = 0.
Proof.
  intros H. apply Parse_is_Date in H as (year & month & day & ->).
  unfold time.Date. cbv zeta. simpl. split; [reflexivity|].
  rewrite Z.add_comm, Z.mod_add by discriminate. reflexivity.
Qed.

(** ** The loop of [filterData] *)

Lemma filterData_acc (data : list FundItem) (start end_ : time.Time) (acc : list DataPoint) :
  fold_left
    (fun filteredData item =>
       match time.Parse (item_Date item) with
       | None => filteredData
       | Some date =>
           if keep date start end_
           then filteredData ++ [mkDataPoint (item_Date item) (item_Nav item)]
           else filteredData
       end)
    data acc
  = acc ++ subsequence
             (fun item => match time.Parse (item_Date item) with
                          | Some date => keep date start end_
                          | None => false
                          end) data.
Proof.
  revert acc. induction data as [|item data IH]; intros acc; simpl.
  - unfold subsequence. simpl. now rewrite app_nil_r.
  - rewrite IH. unfold subsequence. simpl.
    destruct (time.Parse (item_Date item)) as [date|]; [|reflexivity].
    destruct (keep date start end_); [|reflexivity].
    simpl. now rewrite <- app_assoc.
Qed.

Lemma filterData_subsequence (data : list FundItem) (start end_ : time.Time) :
  filterData data start end_
  = subsequence
      (fun item => match time.Parse (item_Date item) with
                   | Some date => keep date start end_
                   | None => false
                   end) data.
Proof. unfold filterData. now rewrite filterData_acc. Qed.

Lemma filter_ext_bool {A : Type} (p q : A -> bool) (l : list A) :
  (forall x, p x = q x) -> List.filter p l = List.filter q l.
Proof.
  intros H. induction l as [|x l IH]; simpl; [reflexivity|].
  rewrite H, IH. reflexivity.
Qed.

Lemma Equal_or_After (d s : time.Time) :
  time.Equal d s || time.After d s = time_leb s d.
Proof.
  unfold time.Equal, time.After, time_leb.
  destruct d as [ds dn], s as [ss sn]; simpl.
  destruct (Z.eqb_spec ds ss), (Z.eqb_spec ss ds), (Z.eqb_spec dn sn),
    (Z.ltb_spec ss ds), (Z.leb_spec sn dn); simpl;
    rewrite ?Z.gtb_ltb; try lia;
    repeat match goal with |- context [?a <? ?b] => destruct (Z.ltb_spec a b) end;
    simpl; try reflexivity; lia.
Qed.

Lemma Equal_or_Before (d e : time.Time) :
  time.Equal d e || time.Before d e = time_leb d e.
Proof.
  unfold time.Equal, time.Before, time_leb.
  destruct d as [ds dn], e as [es en]; simpl.
  destruct (Z.eqb_spec ds es), (Z.eqb_spec dn en),
    (Z.ltb_spec ds es), (Z.leb_spec dn en), (Z.ltb_spec dn en); simpl;
    try reflexivity; lia.
Qed.

(** With a range that is not the pair of zero times, the loop keeps
    exactly the points of the range, in upstream order. *)
Lemma filterData_in_range (data : list FundItem) (start end_ : time.Time) :
  time.IsZero start && time.IsZero end_ = false ->
  filterData data start end_ = subsequence (in_range start end_) data.
Proof.
  intros Hz. rewrite filterData_subsequence. unfold subsequence. f_equal.
  apply filter_ext_bool. intros item. unfold in_range, keep.
  destruct (time.Parse (item_Date item)) as [d|]; [|reflexivity].
  now rewrite Hz, Equal_or_After, Equal_or_Before.
Qed.

(** With the pair of zero times, the loop keeps every point whose date
    parses. *)
Lemma filterData_zero (data : list FundItem) :
  filterData data time.zero time.zero = subsequence parseable data.
Proof.
  rewrite filterData_subsequence. reflexivity.
Qed.

(** ** Range validation *)

Lemma eqb_empty_false (s : string) : s <> EmptyString -> String.eqb s EmptyString = false.
Proof. intros H. now apply String.eqb_neq. Qed.

Lemma Parse_not_empty (value : string) (t : time.Time) :
  time.Parse value = Some t -> String.eqb value EmptyString = false.
Proof. intros H. apply String.eqb_neq. intros ->. discriminate H. Qed.

(** Range validation requests nothing from the upstream. *)
Lemma validateAndParseDates_trace (startDate endDate : string) (w : World) :
  snd (validateAndParseDates startDate endDate w) = [].
Proof.
  unfold validateAndParseDates, parseDates.
  destruct (negb (String.eqb startDate EmptyString) && negb (String.eqb endDate EmptyString)).
  - destruct (time.Parse startDate) as [start|]; [|reflexivity].
    destruct (time.Parse endDate) as [end_|]; [|reflexivity].
    unfold mbind, IO_bind, time_Now. simpl.
    destruct (time.After end_ (now w)); [reflexivity|].
    destruct (time.After start end_); reflexivity.
  - destruct (String.eqb startDate EmptyString && String.eqb endDate EmptyString);
      reflexivity.
Qed.

Lemma validateAndParseDates_no_dates (w : World) :
  validateAndParseDates EmptyString EmptyString w = ((time.zero, time.zero, None), []).
Proof. reflexivity. Qed.

Lemma validateAndParseDates_one_sided (startDate endDate : string) (w : World) :
  one_sided startDate endDate ->
  validateAndParseDates startDate endDate w
  = ((time.zero, time.zero,
      Some "both start and end dates are required in the format dd-mm-yyyy"), []).
Proof.
  unfold validateAndParseDates. intros [[-> He]|[Hs ->]].
  - now rewrite (eqb_empty_false _ He).
  - now rewrite (eqb_empty_false _ Hs).
Qed.

(** Two dates that parse: the future end date is tested first, the
    inverted range second. *)
Lemma validateAndParseDates_parsed (startDate endDate : string) (start end_ : time.Time)
    (w : World) :
  time.Parse startDate = Some start ->
  time.Parse endDate = Some end_ ->
  validateAndParseDates startDate endDate w
  = (if time.After end_ (now w) then
       (time.zero, time.zero, Some "end date cannot be in the future")
     else if time.After start end_ then
       (time.zero, time.zero, Some "start date cannot be after end date")
     else (start, end_, None), []).
Proof.
  intros Hs He. unfold validateAndParseDates, parseDates.
  rewrite (Parse_not_empty _ _ Hs), (Parse_not_empty _ _ He), Hs, He. simpl.
  unfold mbind, IO_bind, time_Now.
  destruct (time.After end_ (now w)); [reflexivity|].
  destruct (time.After start end_); reflexivity.
Qed.

(** An accepted range has its start not after its end, and its end not
    after the current moment. *)
Lemma validateAndParseDates_accepts (startDate endDate : string) (start end_ : time.Time)
    (w : World) :
  time.Parse startDate = Some start ->
  time.Parse endDate = Some end_ ->
  snd (fst (validateAndParseDates startDate endDate w)) = None ->
  fst (validateAndParseDates startDate endDate w) = (start, end_, None)
  /\ time.After end_ (now w) = false /\ time.After start end_ = false.
Proof.
  intros Hs He. rewrite (validateAndParseDates_parsed _ _ _ _ w Hs He).
  destruct (time.After end_ (now w)); [discriminate|].
  destruct (time.After start end_); [discriminate|].
  intros _. repeat split.
Qed.

(** ** Running the handler *)

Lemma Handler_run (json_Marshal : Response -> string * option string)
    (request : APIGatewayProxyRequest) (w : World) :
  Handler json_Marshal request w =
  if String.eqb (idOf request) EmptyString then
    (createErrorResponse 400 "mutualFundID query parameter is required", [])
  else if negb (isValidInteger (idOf request)) then
    (createErrorResponse 400 "mutualFundID must be an integer", [])
  else
    match fst (validateAndParseDates (startOf request) (endOf request) w) with
    | (_, _, Some e) => (createErrorResponse 400 e, [])
    | (start, end_, None) => after_dates json_Marshal (idOf request) start end_ w
    end.
Proof.
  unfold Handler, idOf, startOf, endOf.
  destruct (String.eqb _ EmptyString); [reflexivity|].
  destruct (negb (isValidInteger _)); [reflexivity|].
  unfold mbind at 1. unfold IO_bind at 1.
  pose proof (validateAndParseDates_trace
                (map_index (QueryStringParameters request) "start")
                (map_index (QueryStringParameters request) "end") w) as Ht.
  destruct (validateAndParseDates _ _ w) as [[[start end_] err] tr].
  simpl in Ht. subst tr. simpl.
  destruct err as [e|]; [reflexivity|].
  unfold after_dates, fetchFundData, mbind, IO_bind, http_Get, marshalled. simpl.
  destruct (upstream w _) as [err|fund [derr|]]; try reflexivity.
  simpl. destruct (decide (fund_Meta fund = zeroMeta)); [reflexivity|].
  destruct (json_Marshal _) as [body [e|]]; reflexivity.
Qed.

Lemma parser_gate_true (request : APIGatewayProxyRequest) :
  parser_gate request = true ->
  String.eqb (idOf request) EmptyString = false
  /\ negb (isValidInteger (idOf request)) = false.
Proof.
  unfold parser_gate. intros H.
  apply andb_true_iff in H as [H1 H2].
  apply negb_true_iff in H1. rewrite H1, H2. split; reflexivity.
Qed.

(** Past the parser gate, the handler is decided by the dates and then by
    the upstream. *)
Lemma Handler_past_parser (json_Marshal : Response -> string * option string)
    (request : APIGatewayProxyRequest) (w : World) :
  parser_gate request = true ->
  Handler json_Marshal request w =
    match fst (validateAndParseDates (startOf request) (endOf request) w) with
    | (_, _, Some e) => (createErrorResponse 400 e, [])
    | (start, end_, None) => after_dates json_Marshal (idOf request) start end_ w
    end.
Proof.
  intros Hg. apply parser_gate_true in Hg as [H1 H2].
  rewrite Handler_run, H1, H2. reflexivity.
Qed.

(** A request whose dates fail range validation gets status 400 and nothing
    is requested from the upstream; past the parser gate, the message is the
    one of range validation. *)
Lemma Handler_date_error (json_Marshal : Response -> string * option string)
    (request : APIGatewayProxyRequest) (w : World) (start end_ : time.Time) (e : string) :
  fst (validateAndParseDates (startOf request) (endOf request) w) = (start, end_, Some e) ->
  StatusCode (fst (fst (Handler json_Marshal request w))) = 400
  /\ snd (Handler json_Marshal request w) = []
  /\ (parser_gate request = true ->
      Handler json_Marshal request w = (createErrorResponse 400 e, [])).
Proof.
  intros Hv. rewrite Handler_run. unfold parser_gate.
  destruct (String.eqb (idOf request) EmptyString).
  { repeat split. discriminate. }
  destruct (isValidInteger (idOf request)); simpl.
  - rewrite Hv. repeat split.
  - repeat split. discriminate.
Qed.

(** The handler requests at most the URL of the fund, and only once the
    fund id and the dates have been accepted. *)
Lemma Handler_trace (json_Marshal : Response -> string * option string)
    (request : APIGatewayProxyRequest) (w : World) (url : string) :
  In url (snd (Handler json_Marshal request w)) ->
  parser_gate request = true
  /\ url = baseURL +:+ idOf request
  /\ exists start end_,
       fst (validateAndParseDates (startOf request) (endOf request) w) = (start, end_, None)
       /\ Handler json_Marshal request w
          = after_dates json_Marshal (idOf request) start end_ w.
Proof.
  rewrite Handler_run. unfold parser_gate.
  destruct (String.eqb (idOf request) EmptyString); simpl; [tauto|].
  destruct (isValidInteger (idOf request)); simpl; [|tauto].
  destruct (fst (validateAndParseDates _ _ w)) as [[start end_] [e|]]; simpl; [tauto|].
  intros Hin. split; [reflexivity|]. split.
  - unfold after_dates in Hin.
    destruct (upstream w _) as [err|fund [derr|]]; simpl in Hin;
      try (destruct Hin as [<-|[]]; reflexivity).
    destruct (decide _); simpl in Hin; destruct Hin as [<-|[]]; reflexivity.
  - exists start, end_. split; reflexivity.
Qed.

(** The handler fetches exactly when the fund id and the dates have been
    accepted. *)
Lemma Handler_fetches (json_Marshal : Response -> string * option string)
    (request : APIGatewayProxyRequest) (w : World) (url : string) :
  In url (snd (Handler json_Marshal request w))
  <-> (parser_gate request = true
       /\ snd (fst (validateAndParseDates (startOf request) (endOf request) w)) = None
       /\ url = baseURL +:+ idOf request).
Proof.
  split.
  - intros Hin. apply Handler_trace in Hin as (Hg & -> & start & end_ & Hv & _).
    rewrite Hv. repeat split. assumption.
  - intros (Hg & Hv & ->). rewrite (Handler_past_parser _ _ _ Hg).
    destruct (fst (validateAndParseDates _ _ w)) as [[start end_] [e|]];
      [discriminate|].
    unfold after_dates.
    destruct (upstream w _) as [err|fund [derr|]]; try (left; reflexivity).
    destruct (decide _); left; reflexivity.
Qed.

(** A 200 response is the encoding of the response built from the fetched
    fund and the validated dates. *)
Lemma Handler_success (json_Marshal : Response -> string * option string)
    (request : APIGatewayProxyRequest) (w : World) :
  StatusCode (fst (fst (Handler json_Marshal request w))) = 200 ->
  exists start end_ fund,
    fst (validateAndParseDates (startOf request) (endOf request) w) = (start, end_, None)
    /\ upstream w (baseURL +:+ idOf request) = GetOk fund None
    /\ fund_Meta fund <> zeroMeta
    /\ json_Marshal
         (createSuccessResponse (fund_Meta fund)
            (filterData (fund_Data fund) start end_) start end_)
       = (Body (fst (fst (Handler json_Marshal request w))), None).
Proof.
  rewrite Handler_run.
  destruct (String.eqb (idOf request) EmptyString); [discriminate|].
  destruct (negb (isValidInteger (idOf request))); [discriminate|].
  destruct (fst (validateAndParseDates _ _ w)) as [[start end_] [e|]]; [discriminate|].
  unfold after_dates.
  destruct (upstream w _) as [err|fund [derr|]]; try discriminate.
  destruct (decide (fund_Meta fund = zeroMeta)) as [|Hne]; [discriminate|].
  unfold marshalled.
  destruct (json_Marshal _) as [body [e|]] eqn:Hm; [discriminate|].
  intros _. exists start, end_, fund. simpl. auto.
Qed.

(** ** Building the success response *)

Lemma createSuccessResponse_eq (meta : FundMeta) (data : list DataPoint)
    (start end_ : time.Time) :
  createSuccessResponse meta data start end_
  = mkResponse meta
      (if negb (time.IsZero start) && negb (time.IsZero end_)
       then time.Format start +:+ " to " +:+ time.Format end_
       else EmptyString)
      data.
Proof.
  unfold createSuccessResponse.
  destruct (negb (time.IsZero start) && negb (time.IsZero end_)); reflexivity.
Qed.

(** The label is set exactly when neither time is the zero time, and then
    it is the two parsed strings joined by [" to "]. *)
Lemma createSuccessResponse_Period (meta : FundMeta) (data : list DataPoint)
    (startDate endDate : string) (start end_ : time.Time) :
  time.Parse startDate = Some start ->
  time.Parse endDate = Some end_ ->
  Period (createSuccessResponse meta data start end_)
  = if negb (time.IsZero start) && negb (time.IsZero end_)
    then startDate +:+ " to " +:+ endDate
    else EmptyString.
Proof.
  intros Hs He. rewrite createSuccessResponse_eq. simpl.
  now rewrite (Format_Parse _ _ Hs), (Format_Parse _ _ He).
Qed.

(** X11. The success response for a request with two dates that parse: the
    range was accepted, the data are the points of the range unless both
    ends are the zero time, and the period is the two strings of the request
    unless one end is the zero time. *)
Lemma Handler_success_with_range (json_Marshal : Response -> string * option string)
    (request : APIGatewayProxyRequest) (w : World) (start end_ : time.Time) :
  time.Parse (startOf request) = Some start ->
  time.Parse (endOf request) = Some end_ ->
  StatusCode (fst (fst (Handler json_Marshal request w))) = 200 ->
  exists fund,
    upstream w (baseURL +:+ idOf request) = GetOk fund None
    /\ time.After end_ (now w) = false
    /\ time.After start end_ = false
    /\ json_Marshal
         (mkResponse (fund_Meta fund)
            (if negb (time.IsZero start) && negb (time.IsZero end_)
             then startOf request +:+ " to " +:+ endOf request
             else EmptyString)
            (if time.IsZero start && time.IsZero end_
             then subsequence parseable (fund_Data fund)
             else subsequence (in_range start end_) (fund_Data fund)))
       = (Body (fst (fst (Handler json_Marshal request w))), None).
Proof.
  intros Hs He Hok.
  destruct (Handler_success _ _ _ Hok) as (start' & end' & fund & Hv & Hup & _ & Hm).
  destruct (validateAndParseDates_accepts _ _ _ _ w Hs He) as (Hv' & Hnow & Hord).
  { now rewrite Hv. }
  rewrite Hv in Hv'. injection Hv' as -> ->.
  exists fund. repeat split; try assumption.
  rewrite <- Hm, createSuccessResponse_eq.
  rewrite (Format_Parse _ _ Hs), (Format_Parse _ _ He).
  f_equal. f_equal.
  destruct (time.IsZero start && time.IsZero end_) eqn:Hz.
  - apply andb_true_iff in Hz as [Hz1 Hz2].
    destruct start as [s n], end_ as [s' n']. unfold time.IsZero in Hz1, Hz2.
    simpl in Hz1, Hz2.
    apply andb_true_iff in Hz1 as [->%Z.eqb_eq ->%Z.eqb_eq].
    apply andb_true_iff in Hz2 as [->%Z.eqb_eq ->%Z.eqb_eq].
    symmetry. apply filterData_zero.
  - symmetry. now apply filterData_in_range.
Qed.

(** ** Error bodies *)

Lemma string_body_plain (message rest : string) :
  plain_message message = true ->
  rfc8259.string_body (message +:+ dquote +:+ rest) = Some (message, rest).
Proof.
  unfold plain_message. induction message as [|c message IH]; intros Hp.
  - reflexivity.
  - simpl in Hp. apply andb_true_iff in Hp as [Hc Hm].
    unfold plain_char in Hc.
    apply andb_true_iff in Hc as [Hc H32]. apply andb_true_iff in Hc as [H34 H92].
    apply negb_true_iff in H34, H92, H32.
    change (String c message +:+ dquote +:+ rest)
      with (String c (message +:+ dquote +:+ rest)).
    cbn [rfc8259.string_body]. rewrite H34, H92, H32, (IH Hm). reflexivity.
Qed.

(** A message without quotation mark, reverse solidus or control character
    gives a well-formed error document that carries it. *)
Lemma createErrorResponse_plain (statusCode : Z) (message : string) :
  plain_message message = true ->
  rfc8259.error_document (Body (fst (createErrorResponse statusCode message)))
  = Some message.
Proof.
  intros Hp. unfold createErrorResponse. cbn [fst Body].
  unfold rfc8259.error_document. simpl.
  change (EmptyString +:+ message +:+ dquote +:+ "}") with (message +:+ dquote +:+ "}").
  rewrite (string_body_plain message "}" Hp). reflexivity.
Qed.

Lemma fixed_messages_plain : forallb plain_message fixed_messages = true.
Proof. vm_compute. reflexivity. Qed.

(** [http.Get] reports a transport failure as a [*url.Error], whose text is
    [Get], the quoted URL, a colon and the cause.  With such a text the
    error body is not a JSON document, whatever the fund id and the cause. *)
Lemma fetch_error_body_not_json (statusCode : Z) (mutualFundID cause : string) :
  rfc8259.error_document
    (Body (fst (createErrorResponse statusCode
                  ("error fetching data from API: "
                   +:+ "Get " +:+ dquote +:+ baseURL +:+ mutualFundID +:+ dquote
                   +:+ ": " +:+ cause))))
  = None.
Proof. reflexivity. Qed.

(** * The properties of the specification *)

(** ** C1: the inclusive range filter *)

(** C1. The accepted range 01-01-0001 to 01-01-0001 is not filtered on:
    range validation accepts it, and [filterData] returns the three
    upstream points of the example although none of them lies in the range,
    where the subsequence of the points in the range is empty.  (For a range
    whose two ends are not both the zero time, [filterData_in_range] gives
    exactly the points of the range.) *)
Theorem C1_zero_range_keeps_points_outside_it :
  validateAndParseDates "01-01-0001" "01-01-0001" ex_world
  = ((time.zero, time.zero, None), [])
  /\ filterData ex_data time.zero time.zero
     = [mkDataPoint "15-01-2023" "10.5"; mkDataPoint "28-02-2023" "11";
        mkDataPoint "02-01-2023" "10"]
  /\ subsequence (in_range time.zero time.zero) ex_data = []
  /\ Handler toy_Marshal (mkQuery "119598" "01-01-0001" "01-01-0001") ex_world
     = (mkProxyResponse 200 jsonHeaders
          "Example Growth||15-01-2023,28-02-2023,02-01-2023", None,
        ["https://api.mfapi.in/mf/119598"]).
Proof. repeat split; vm_compute; reflexivity. Qed.

(** ** C2: the order of the gates *)

(** With a one-sided range and an unreachable upstream, the handler reports
    the range (400) and requests nothing; the pipeline in the order Parser,
    Fetcher, Metadata check, Range validation reports the fetch (500). *)
Lemma C2_spec_order_counterexample :
  Handler toy_Marshal one_sided_request unreachable_world
  = (createErrorResponse 400
       "both start and end dates are required in the format dd-mm-yyyy", [])
  /\ Handler_spec_order toy_Marshal one_sided_request unreachable_world
     = (createErrorResponse 500 ("error fetching data from API: " +:+ unreachable_error),
        ["https://api.mfapi.in/mf/119598"])
  /\ Handler toy_Marshal one_sided_request unreachable_world
     <> Handler_spec_order toy_Marshal one_sided_request unreachable_world.
Proof.
  split; [vm_compute; reflexivity|]. split; [vm_compute; reflexivity|].
  intros H. apply (f_equal (fun r => StatusCode (fst (fst r)))) in H.
  vm_compute in H. discriminate H.
Qed.

(** C2, amended. The gates apply in the order Parser, Range validation,
    Fetcher, Metadata check, Filter, Build, and the first one that fails
    decides the response: a missing or non-integer fund id whatever the
    dates and the upstream; then the error of range validation whatever the
    upstream, with no request sent; then the fetch or decoding error; then
    the empty-metadata error; and otherwise the encoding of the response
    built from the filtered data. *)
Theorem C2_gate_order
    (json_Marshal : Response -> string * option string)
    (request : APIGatewayProxyRequest) (w : World) :
  (idOf request = EmptyString ->
   Handler json_Marshal request w
   = (createErrorResponse 400 "mutualFundID query parameter is required", []))
  /\ (idOf request <> EmptyString -> isValidInteger (idOf request) = false ->
      Handler json_Marshal request w
      = (createErrorResponse 400 "mutualFundID must be an integer", []))
  /\ (parser_gate request = true ->
      (forall start end_ e,
         fst (validateAndParseDates (startOf request) (endOf request) w)
         = (start, end_, Some e) ->
         Handler json_Marshal request w = (createErrorResponse 400 e, []))
      /\ (forall start end_,
            fst (validateAndParseDates (startOf request) (endOf request) w)
            = (start, end_, None) ->
            let url := baseURL +:+ idOf request in
            (forall err,
               upstream w url = GetErr err ->
               Handler json_Marshal request w
               = (createErrorResponse 500 ("error fetching data from API: " +:+ err),
                  [url]))
            /\ (forall fund err,
                  upstream w url = GetOk fund (Some err) ->
                  Handler json_Marshal request w
                  = (createErrorResponse 500 ("error decoding API response: " +:+ err),
                     [url]))
            /\ (forall fund,
                  upstream w url = GetOk fund None ->
                  fund_Meta fund = zeroMeta ->
                  Handler json_Marshal request w
                  = (createErrorResponse 400 "Invalid mutualFundID", [url]))
            /\ (forall fund,
                  upstream w url = GetOk fund None ->
                  fund_Meta fund <> zeroMeta ->
                  Handler json_Marshal request w
                  = (marshalled json_Marshal
                       (createSuccessResponse (fund_Meta fund)
                          (filterData (fund_Data fund) start end_) start end_),
                     [url])))).
Proof.
  split; [|split].
  - intros Hid. rewrite Handler_run, Hid. reflexivity.
  - intros Hid Hint. rewrite Handler_run, (eqb_empty_false _ Hid), Hint. reflexivity.
  - intros Hg. rewrite (Handler_past_parser _ _ _ Hg). split.
    + intros start end_ e ->. reflexivity.
    + intros start end_ ->. cbv zeta. unfold after_dates.
      repeat split.
      * intros err ->. reflexivity.
      * intros fund err ->. reflexivity.
      * intros fund -> Hz.
        destruct (decide (fund_Meta fund = zeroMeta)); [reflexivity|contradiction].
      * intros fund -> Hnz.
        destruct (decide (fund_Meta fund = zeroMeta)); [contradiction|reflexivity].
Qed.

(** The range error comes before the fetch error, and no request is sent. *)
Lemma C2_gate_order_witness :
  Handler toy_Marshal one_sided_request unreachable_world
  = (createErrorResponse 400
       "both start and end dates are required in the format dd-mm-yyyy", []).
Proof.
  destruct (C2_gate_order toy_Marshal one_sided_request unreachable_world)
    as (_ & _ & Hdates).
  destruct (Hdates eq_refl) as [Hrange _].
  apply (Hrange time.zero time.zero). reflexivity.
Defined.

(** ** C3: the period label of a success response *)

(** C3. The accepted range 01-01-0001 to 31-01-2023 is filtered on but not
    labelled: range validation returns the two parsed times, [filterData]
    keeps the two points of January 2023, and the response carries no
    period.  (When neither end is the zero time, the period is the two
    strings of the request: [createSuccessResponse_Period].) *)
Theorem C3_accepted_range_without_period :
  validateAndParseDates "01-01-0001" "31-01-2023" ex_world
  = ((time.zero, time.mkTime 63810720000 0, None), [])
  /\ filterData ex_data time.zero (time.mkTime 63810720000 0)
     = [mkDataPoint "15-01-2023" "10.5"; mkDataPoint "02-01-2023" "10"]
  /\ Period (createSuccessResponse ex_meta
               (filterData ex_data time.zero (time.mkTime 63810720000 0))
               time.zero (time.mkTime 63810720000 0)) = EmptyString
  /\ Handler toy_Marshal (mkQuery "119598" "01-01-0001" "31-01-2023") ex_world
     = (mkProxyResponse 200 jsonHeaders "Example Growth||15-01-2023,02-01-2023", None,
        ["https://api.mfapi.in/mf/119598"]).
Proof. repeat split; vm_compute; reflexivity. Qed.

(** ** C4: no dates given *)

Lemma filter_negb_length {A : Type} (p : A -> bool) (l : list A) :
  (length (List.filter p l) + length (List.filter (fun x => negb (p x)) l) = length l)%nat.
Proof.
  induction l as [|x l IH]; simpl; [reflexivity|].
  destruct (p x); simpl; lia.
Qed.

(** C4. For a request with [start] and [end] both empty, range validation
    returns the two zero times; with them [filterData] keeps every upstream
    point whose date parses, in upstream order, so that the length of its
    output is the upstream length less the number of unparseable dates, and
    [createSuccessResponse] sets no period.  When the fund id has passed the
    parser gate and the upstream has answered with a fund that decoded
    without error and has metadata, the handler returns the encoding of the
    response with these data and without period, with status 200 when the
    encoder reports no error.  In every case the response is an error
    response or that encoding, and a response with status 200 is that
    encoding. *)
Theorem C4_no_dates_pass_through
    (json_Marshal : Response -> string * option string)
    (request : APIGatewayProxyRequest) (w : World) :
  startOf request = EmptyString ->
  endOf request = EmptyString ->
  fst (validateAndParseDates (startOf request) (endOf request) w)
  = (time.zero, time.zero, None)
  /\ (forall data,
        filterData data time.zero time.zero = subsequence parseable data
        /\ (length (filterData data time.zero time.zero)
            + length (List.filter (fun item => negb (parseable item)) data)
            = length data)%nat)
  /\ (forall meta data,
        Period (createSuccessResponse meta data time.zero time.zero) = EmptyString)
  /\ (forall fund,
        parser_gate request = true ->
        upstream w (baseURL +:+ idOf request) = GetOk fund None ->
        fund_Meta fund <> zeroMeta ->
        fst (Handler json_Marshal request w)
        = marshalled json_Marshal
            (mkResponse (fund_Meta fund) EmptyString
               (subsequence parseable (fund_Data fund)))
        /\ forall body,
             json_Marshal
               (mkResponse (fund_Meta fund) EmptyString
                  (subsequence parseable (fund_Data fund))) = (body, None) ->
             fst (Handler json_Marshal request w)
             = (mkProxyResponse 200 jsonHeaders body, None))
  /\ ((exists statusCode message,
         fst (Handler json_Marshal request w) = createErrorResponse statusCode message)
      \/ (exists fund,
            upstream w (baseURL +:+ idOf request) = GetOk fund None
            /\ fst (Handler json_Marshal request w)
               = marshalled json_Marshal
                   (mkResponse (fund_Meta fund) EmptyString
                      (subsequence parseable (fund_Data fund)))))
  /\ (StatusCode (fst (fst (Handler json_Marshal request w))) = 200 ->
      exists fund response,
        upstream w (baseURL +:+ idOf request) = GetOk fund None
        /\ json_Marshal response
           = (Body (fst (fst (Handler json_Marshal request w))), None)
        /\ Meta response = fund_Meta fund
        /\ Period response = EmptyString
        /\ Data response = subsequence parseable (fund_Data fund)
        /\ (length (Data response)
            + length (List.filter (fun item => negb (parseable item)) (fund_Data fund))
            = length (fund_Data fund))%nat).
Proof.
  intros Hs He.
  assert (Hv : fst (validateAndParseDates (startOf request) (endOf request) w)
               = (time.zero, time.zero, None)).
  { rewrite Hs, He. reflexivity. }
  assert (Hpass : forall fund,
            parser_gate request = true ->
            upstream w (baseURL +:+ idOf request) = GetOk fund None ->
            fund_Meta fund <> zeroMeta ->
            fst (Handler json_Marshal request w)
            = marshalled json_Marshal
                (mkResponse (fund_Meta fund) EmptyString
                   (subsequence parseable (fund_Data fund)))).
  { intros fund Hg Hup Hne.
    rewrite (Handler_past_parser _ _ _ Hg), Hv. unfold after_dates. rewrite Hup.
    destruct (decide (fund_Meta fund = zeroMeta)); [contradiction|].
    simpl. now rewrite createSuccessResponse_eq, filterData_zero. }
  split; [exact Hv|]. split; [|split; [|split; [|split]]].
  - intros data. split; [apply filterData_zero|].
    rewrite filterData_zero. unfold subsequence. rewrite length_map.
    apply filter_negb_length.
  - intros meta data. now rewrite createSuccessResponse_eq.
  - intros fund Hg Hup Hne. split; [now apply Hpass|].
    intros body Hm. rewrite (Hpass fund Hg Hup Hne). unfold marshalled.
    now rewrite Hm.
  - rewrite Handler_run.
    destruct (String.eqb (idOf request) EmptyString) eqn:Hid; [left; simpl; eauto|].
    destruct (negb (isValidInteger (idOf request))) eqn:Hint; [left; simpl; eauto|].
    rewrite Hv. unfold after_dates.
    destruct (upstream w _) as [err|fund [derr|]] eqn:Hup;
      try (left; simpl; eauto; fail).
    destruct (decide (fund_Meta fund = zeroMeta)); [left; simpl; eauto|].
    right. exists fund. split; [reflexivity|].
    simpl. now rewrite createSuccessResponse_eq, filterData_zero.
  - intros Hok.
    destruct (Handler_success _ _ _ Hok) as (start & end_ & fund & Hv' & Hup & _ & Hm).
    rewrite Hv in Hv'. injection Hv' as <- <-.
    exists fund, (createSuccessResponse (fund_Meta fund)
                    (filterData (fund_Data fund) time.zero time.zero)
                    time.zero time.zero).
    repeat split; try assumption; try reflexivity.
    + simpl. apply filterData_zero.
    + simpl. rewrite filterData_zero. unfold subsequence. rewrite length_map.
      apply filter_negb_length.
Qed.

(** Three upstream points, one with a date in another format: the handler
    answers 200 with the two others and without a period. *)
Lemma C4_no_dates_witness :
  Handler toy_Marshal (mkQueryOf [("mutualFundID", "119598")]) noisy_world
  = (mkProxyResponse 200 jsonHeaders "Example Growth||15-01-2023,02-01-2023", None,
     ["https://api.mfapi.in/mf/119598"])
  /\ fst (Handler toy_Marshal (mkQueryOf [("mutualFundID", "119598")]) noisy_world)
     = (mkProxyResponse 200 jsonHeaders "Example Growth||15-01-2023,02-01-2023", None)
  /\ filterData noisy_data time.zero time.zero
     = [mkDataPoint "15-01-2023" "10.5"; mkDataPoint "02-01-2023" "10"].
Proof.
  destruct (C4_no_dates_pass_through toy_Marshal
              (mkQueryOf [("mutualFundID", "119598")]) noisy_world eq_refl eq_refl)
    as (_ & Hfilter & _ & Hpass & _).
  split; [vm_compute; reflexivity|]. split.
  - apply (Hpass (mkFund ex_meta noisy_data)).
    + reflexivity.
    + reflexivity.
    + discriminate.
    + reflexivity.
  - rewrite (proj1 (Hfilter noisy_data)). reflexivity.
Defined.

(** ** C5: error bodies *)

(** C5. When the upstream cannot be reached, the handler answers with
    status 500 and a body that is not a JSON document: the quotation mark
    before the URL in the transport error ends the string early.  (Messages
    without quotation mark, reverse solidus or control character, among them
    all the fixed ones, give a well-formed document:
    [createErrorResponse_plain], [fixed_messages_plain].) *)
Theorem C5_fetch_error_body_is_not_json :
  let result :=
    Handler toy_Marshal (mkQueryOf [("mutualFundID", "119598")]) unreachable_world in
  StatusCode (fst (fst result)) = 500
  /\ Body (fst (fst result))
     = "{" +:+ dquote +:+ "error" +:+ dquote +:+ ": " +:+ dquote
       +:+ "error fetching data from API: Get " +:+ dquote
       +:+ "https://api.mfapi.in/mf/119598" +:+ dquote
       +:+ ": dial tcp: lookup api.mfapi.in: no such host" +:+ dquote +:+ "}"
  /\ rfc8259.error_document (Body (fst (fst result))) = None.
Proof. repeat split; vm_compute; reflexivity. Qed.

(** ** C6: future and inverted ranges *)

(** Two well-formed dates with the end in the future, in a request without
    a fund id and in one whose fund id is not an integer: both are refused
    for the fund id, not for the end date. *)
Lemma C6_fund_id_first_counterexample :
  time.Parse "01-01-2999" <> None
  /\ time.Parse "31-12-2998" = Some (time.mkTime 94607654400 0)
  /\ time.After (time.mkTime 94607654400 0) (now ex_world) = true
  /\ Handler toy_Marshal
       (mkQueryOf [("start", "01-01-2999"); ("end", "31-12-2998")]) ex_world
     = (createErrorResponse 400 "mutualFundID query parameter is required", [])
  /\ Handler toy_Marshal
       (mkQueryOf [("mutualFundID", "11x"); ("start", "01-01-2999");
                   ("end", "31-12-2998")]) ex_world
     = (createErrorResponse 400 "mutualFundID must be an integer", [])
  /\ Handler toy_Marshal
       (mkQueryOf [("start", "01-01-2999"); ("end", "31-12-2998")]) ex_world
     <> (createErrorResponse 400 "end date cannot be in the future", []).
Proof.
  split; [discriminate|]. split; [reflexivity|]. split; [reflexivity|].
  split; [vm_compute; reflexivity|]. split; [vm_compute; reflexivity|].
  intros H. apply (f_equal (fun r => Body (fst (fst r)))) in H.
  vm_compute in H. discriminate H.
Qed.

(** C6, amended. For two strings that parse as dd-mm-yyyy dates: if the end
    date is after the current moment, range validation fails with
    [end date cannot be in the future]; otherwise, if the start date is
    after the end date, it fails with [start date cannot be after end date].
    A request that carries these dates and whose fund id has passed the
    parser gate is answered with that message and status 400; whatever the
    fund id, the request is answered with status 400 and [http.Get] is not
    called. *)
Theorem C6_future_end_then_inverted_range
    (startDate endDate : string) (start end_ : time.Time) :
  time.Parse startDate = Some start ->
  time.Parse endDate = Some end_ ->
  (forall w,
     time.After end_ (now w) = true ->
     validateAndParseDates startDate endDate w
     = ((time.zero, time.zero, Some "end date cannot be in the future"), [])
     /\ forall json_Marshal request,
          startOf request = startDate -> endOf request = endDate ->
          StatusCode (fst (fst (Handler json_Marshal request w))) = 400
          /\ snd (Handler json_Marshal request w) = []
          /\ (parser_gate request = true ->
              Handler json_Marshal request w
              = (createErrorResponse 400 "end date cannot be in the future", [])))
  /\ (forall w,
        time.After end_ (now w) = false ->
        time.After start end_ = true ->
        validateAndParseDates startDate endDate w
        = ((time.zero, time.zero, Some "start date cannot be after end date"), [])
        /\ forall json_Marshal request,
             startOf request = startDate -> endOf request = endDate ->
             StatusCode (fst (fst (Handler json_Marshal request w))) = 400
             /\ snd (Handler json_Marshal request w) = []
             /\ (parser_gate request = true ->
                 Handler json_Marshal request w
                 = (createErrorResponse 400 "start date cannot be after end date", []))).
Proof.
  intros Hs He. split.
  - intros w Hfut.
    assert (Hv := validateAndParseDates_parsed _ _ _ _ w Hs He).
    rewrite Hfut in Hv. split; [exact Hv|].
    intros json_Marshal request Hrs Hre.
    apply (Handler_date_error _ _ _ time.zero time.zero).
    now rewrite Hrs, Hre, Hv.
  - intros w Hfut Hinv.
    assert (Hv := validateAndParseDates_parsed _ _ _ _ w Hs He).
    rewrite Hfut, Hinv in Hv. split; [exact Hv|].
    intros json_Marshal request Hrs Hre.
    apply (Handler_date_error _ _ _ time.zero time.zero).
    now rewrite Hrs, Hre, Hv.
Qed.

(** In the first request both checks fail, and the future end date is the
    one reported. *)
Lemma C6_future_end_witness :
  Handler toy_Marshal (mkQuery "119598" "01-01-2999" "31-12-2998") ex_world
  = (createErrorResponse 400 "end date cannot be in the future", [])
  /\ Handler toy_Marshal (mkQuery "119598" "31-01-2023" "01-01-2023") ex_world
     = (createErrorResponse 400 "start date cannot be after end date", []).
Proof.
  split.
  - destruct (C6_future_end_then_inverted_range "01-01-2999" "31-12-2998" _ _
                eq_refl eq_refl) as [Hfuture _].
    destruct (Hfuture ex_world eq_refl) as [_ Hrequest].
    apply (Hrequest toy_Marshal (mkQuery "119598" "01-01-2999" "31-12-2998")
             eq_refl eq_refl).
    reflexivity.
  - destruct (C6_future_end_then_inverted_range "31-01-2023" "01-01-2023" _ _
                eq_refl eq_refl) as [_ Hinverted].
    destruct (Hinverted ex_world eq_refl eq_refl) as [_ Hrequest].
    apply (Hrequest toy_Marshal (mkQuery "119598" "31-01-2023" "01-01-2023")
             eq_refl eq_refl).
    reflexivity.
Defined.

(** ** C7: one-sided ranges *)

(** Two requests with only [start] given: without a fund id, and with one
    that is not an integer.  Both are refused for the fund id, not for the
    range. *)
Lemma C7_fund_id_first_counterexample :
  one_sided "01-01-2023" EmptyString
  /\ Handler toy_Marshal (mkQueryOf [("start", "01-01-2023")]) ex_world
     = (createErrorResponse 400 "mutualFundID query parameter is required", [])
  /\ Handler toy_Marshal
       (mkQueryOf [("mutualFundID", "11x"); ("start", "01-01-2023")]) ex_world
     = (createErrorResponse 400 "mutualFundID must be an integer", [])
  /\ Handler toy_Marshal (mkQueryOf [("start", "01-01-2023")]) ex_world
     <> (createErrorResponse 400
           "both start and end dates are required in the format dd-mm-yyyy", []).
Proof.
  split; [right; split; [discriminate|reflexivity]|].
  split; [vm_compute; reflexivity|]. split; [vm_compute; reflexivity|].
  intros H. apply (f_equal (fun r => Body (fst (fst r)))) in H.
  vm_compute in H. discriminate H.
Qed.

(** C7, amended. When exactly one of [start] and [end] is non-empty,
    whichever it is and whatever it holds, range validation fails with the
    message [both start and end dates are required in the format dd-mm-yyyy],
    and a request that carries these values and whose fund id has passed the
    parser gate is answered with that message and status 400.  Whatever the
    fund id, the request is answered with status 400 and nothing is requested
    from the upstream. *)
Theorem C7_one_sided_range_is_incomplete (startDate endDate : string) :
  one_sided startDate endDate ->
  (forall w,
     validateAndParseDates startDate endDate w
     = ((time.zero, time.zero,
         Some "both start and end dates are required in the format dd-mm-yyyy"), []))
  /\ (forall json_Marshal request w,
        startOf request = startDate -> endOf request = endDate ->
        StatusCode (fst (fst (Handler json_Marshal request w))) = 400
        /\ snd (Handler json_Marshal request w) = []
        /\ (parser_gate request = true ->
            Handler json_Marshal request w
            = (createErrorResponse 400
                 "both start and end dates are required in the format dd-mm-yyyy", []))).
Proof.
  intros Hone. split.
  - intros w. now apply validateAndParseDates_one_sided.
  - intros json_Marshal request w Hs He.
    apply (Handler_date_error _ _ _ time.zero time.zero).
    now rewrite Hs, He, (validateAndParseDates_one_sided _ _ w Hone).
Qed.

(** Only [end] is given, and it is not a date. *)
Lemma C7_one_sided_range_witness :
  Handler toy_Marshal (mkQueryOf [("mutualFundID", "119598"); ("end", "not a date")]) ex_world
  = (createErrorResponse 400
       "both start and end dates are required in the format dd-mm-yyyy", []).
Proof.
  assert (Hone : one_sided EmptyString "not a date").
  { left. split; [reflexivity|discriminate]. }
  destruct (C7_one_sided_range_is_incomplete EmptyString "not a date" Hone)
    as [_ Hrequest].
  apply (Hrequest toy_Marshal
           (mkQueryOf [("mutualFundID", "119598"); ("end", "not a date")]) ex_world
           eq_refl eq_refl).
  reflexivity.
Defined.

(** ** C8: empty metadata *)

(** C8. Whenever the handler has fetched [url] and the upstream answered
    with a body that decoded without error into a fund whose metadata is
    the zero value, the response is the 400 error [Invalid mutualFundID],
    whatever NAV data came with it. *)
Theorem C8_empty_metadata_is_invalid_fund_id
    (json_Marshal : Response -> string * option string)
    (request : APIGatewayProxyRequest) (w : World) (url : string) (fund : Fund) :
  In url (snd (Handler json_Marshal request w)) ->
  upstream w url = GetOk fund None ->
  fund_Meta fund = zeroMeta ->
  fst (Handler json_Marshal request w) = createErrorResponse 400 "Invalid mutualFundID".
Proof.
  intros Hin Hup Hmeta.
  apply Handler_trace in Hin as (_ & -> & start & end_ & _ & ->).
  unfold after_dates. rewrite Hup.
  destruct (decide (fund_Meta fund = zeroMeta)); [reflexivity|contradiction].
Qed.

(** Fund id 0: the upstream answers with empty metadata and some data. *)
Lemma C8_empty_metadata_witness :
  fst (Handler toy_Marshal (mkQueryOf [("mutualFundID", "0")]) empty_meta_world)
  = createErrorResponse 400 "Invalid mutualFundID".
Proof.
  apply (C8_empty_metadata_is_invalid_fund_id toy_Marshal
           (mkQueryOf [("mutualFundID", "0")]) empty_meta_world
           "https://api.mfapi.in/mf/0" (mkFund zeroMeta ex_data)).
  - vm_compute. left. reflexivity.
  - reflexivity.
  - reflexivity.
Defined.

(** ** C9: the range 01-01-0001 to 01-01-0001 *)

(** C9. [01-01-0001] parses to the zero time.  With a current moment that
    is not before it, range validation accepts the pair
    ([01-01-0001], [01-01-0001]) and returns the two zero times, which is
    also what it returns when no dates are given; the handler then returns
    what it returns for the same request without dates.  When the fund id
    has passed the parser gate and the upstream has answered with a fund
    that decoded without error and has metadata, that is the encoding of the
    response with every upstream point whose date parses, in the range or
    not, and without period, with status 200 when the encoder reports no
    error; and a response with status 200 is that encoding. *)
Theorem C9_zero_date_range_is_no_range
    (json_Marshal : Response -> string * option string)
    (with_range without_range : APIGatewayProxyRequest) (w : World) :
  time.After time.zero (now w) = false ->
  idOf with_range = idOf without_range ->
  startOf with_range = "01-01-0001" -> endOf with_range = "01-01-0001" ->
  startOf without_range = EmptyString -> endOf without_range = EmptyString ->
  time.Parse "01-01-0001" = Some time.zero
  /\ validateAndParseDates "01-01-0001" "01-01-0001" w = ((time.zero, time.zero, None), [])
  /\ Handler json_Marshal with_range w = Handler json_Marshal without_range w
  /\ (StatusCode (fst (fst (Handler json_Marshal with_range w))) = 200 ->
      exists fund,
        upstream w (baseURL +:+ idOf with_range) = GetOk fund None
        /\ json_Marshal
             (mkResponse (fund_Meta fund) EmptyString
                (subsequence parseable (fund_Data fund)))
           = (Body (fst (fst (Handler json_Marshal with_range w))), None))
  /\ (forall fund,
        parser_gate with_range = true ->
        upstream w (baseURL +:+ idOf with_range) = GetOk fund None ->
        fund_Meta fund <> zeroMeta ->
        fst (Handler json_Marshal with_range w)
        = marshalled json_Marshal
            (mkResponse (fund_Meta fund) EmptyString
               (subsequence parseable (fund_Data fund)))
        /\ forall body,
             json_Marshal
               (mkResponse (fund_Meta fund) EmptyString
                  (subsequence parseable (fund_Data fund))) = (body, None) ->
             fst (Handler json_Marshal with_range w)
             = (mkProxyResponse 200 jsonHeaders body, None)).
Proof.
  intros Hnow Hid Hs He Hs' He'.
  assert (Hp : time.Parse "01-01-0001" = Some time.zero) by reflexivity.
  assert (Hv : validateAndParseDates "01-01-0001" "01-01-0001" w
               = ((time.zero, time.zero, None), [])).
  { rewrite (validateAndParseDates_parsed _ _ _ _ w Hp Hp), Hnow. reflexivity. }
  assert (Hpass : forall fund,
            parser_gate with_range = true ->
            upstream w (baseURL +:+ idOf with_range) = GetOk fund None ->
            fund_Meta fund <> zeroMeta ->
            fst (Handler json_Marshal with_range w)
            = marshalled json_Marshal
                (mkResponse (fund_Meta fund) EmptyString
                   (subsequence parseable (fund_Data fund)))).
  { intros fund Hg Hup Hne.
    rewrite (Handler_past_parser _ _ _ Hg), Hs, He, Hv. unfold after_dates.
    rewrite Hup. destruct (decide (fund_Meta fund = zeroMeta)); [contradiction|].
    simpl. now rewrite createSuccessResponse_eq, filterData_zero. }
  split; [exact Hp|]. split; [exact Hv|]. split; [|split].
  - rewrite !Handler_run, Hid, Hs, He, Hs', He', Hv, validateAndParseDates_no_dates.
    reflexivity.
  - intros Hok.
    destruct (Handler_success _ _ _ Hok) as (start & end_ & fund & Hv' & Hup & _ & Hm).
    rewrite Hs, He, Hv in Hv'. simpl in Hv'. injection Hv' as <- <-.
    exists fund. split; [exact Hup|].
    rewrite <- Hm, filterData_zero. reflexivity.
  - intros fund Hg Hup Hne. split; [now apply Hpass|].
    intros body Hm. rewrite (Hpass fund Hg Hup Hne). unfold marshalled.
    now rewrite Hm.
Qed.

(** None of the three points lies in the range, all three are returned, and
    the response is the one of the request without dates. *)
Lemma C9_zero_date_range_witness :
  Handler toy_Marshal (mkQuery "119598" "01-01-0001" "01-01-0001") ex_world
  = Handler toy_Marshal (mkQueryOf [("mutualFundID", "119598")]) ex_world
  /\ fst (Handler toy_Marshal (mkQuery "119598" "01-01-0001" "01-01-0001") ex_world)
     = (mkProxyResponse 200 jsonHeaders
          "Example Growth||15-01-2023,28-02-2023,02-01-2023", None)
  /\ exists fund,
       upstream ex_world "https://api.mfapi.in/mf/119598" = GetOk fund None
       /\ toy_Marshal
            (mkResponse (fund_Meta fund) EmptyString
               (subsequence parseable (fund_Data fund)))
          = ("Example Growth||15-01-2023,28-02-2023,02-01-2023", None).
Proof.
  destruct (C9_zero_date_range_is_no_range toy_Marshal
              (mkQuery "119598" "01-01-0001" "01-01-0001")
              (mkQueryOf [("mutualFundID", "119598")]) ex_world
              eq_refl eq_refl eq_refl eq_refl eq_refl eq_refl)
    as (_ & _ & Hsame & Hdata & Hpass).
  split; [exact Hsame|]. split.
  - apply (Hpass (mkFund ex_meta ex_data)).
    + reflexivity.
    + reflexivity.
    + discriminate.
    + reflexivity.
  - apply Hdata. reflexivity.
Defined.

(** ** C10: the handler never returns a Go error *)

(** C10. For every request and environment the handler returns a nil error
    together with a complete response: its only header is [Content-Type],
    [application/json]; its status is 200, 400 or 500; and every failure is
    encoded in the status and the body.  A missing fund id, a fund id that is
    not an integer, a refused range and empty metadata give status 400; a
    failed fetch, a failed decoding and a failed encoding give status 500;
    in each case the body is the text [{"error": "<message>"}] with the
    message of that failure.  When nothing fails the status is 200 and the
    body is what the encoder returned, and a response with status 200 is
    returned in that case only. *)
Theorem C10_Handler_returns_nil_error
    (json_Marshal : Response -> string * option string)
    (request : APIGatewayProxyRequest) (w : World) :
  let resp := fst (fst (Handler json_Marshal request w)) in
  snd (fst (Handler json_Marshal request w)) = None
  /\ Headers resp !! "Content-Type" = Some "application/json"
  /\ (StatusCode resp = 200
      \/ ((StatusCode resp = 400 \/ StatusCode resp = 500)
          /\ exists message,
               fst (Handler json_Marshal request w)
               = createErrorResponse (StatusCode resp) message))
  /\ Headers resp = json_content_type
  /\ (StatusCode resp <> 200 -> exists message, Body resp = error_body message)
  /\ (idOf request = EmptyString ->
      StatusCode resp = 400
      /\ Body resp = error_body "mutualFundID query parameter is required")
  /\ (idOf request <> EmptyString -> isValidInteger (idOf request) = false ->
      StatusCode resp = 400
      /\ Body resp = error_body "mutualFundID must be an integer")
  /\ (parser_gate request = true ->
      (forall start end_ e,
         fst (validateAndParseDates (startOf request) (endOf request) w)
         = (start, end_, Some e) ->
         StatusCode resp = 400 /\ Body resp = error_body e)
      /\ (forall start end_,
            fst (validateAndParseDates (startOf request) (endOf request) w)
            = (start, end_, None) ->
            (forall err,
               upstream w (baseURL +:+ idOf request) = GetErr err ->
               StatusCode resp = 500
               /\ Body resp = error_body ("error fetching data from API: " +:+ err))
            /\ (forall fund err,
                  upstream w (baseURL +:+ idOf request) = GetOk fund (Some err) ->
                  StatusCode resp = 500
                  /\ Body resp = error_body ("error decoding API response: " +:+ err))
            /\ (forall fund,
                  upstream w (baseURL +:+ idOf request) = GetOk fund None ->
                  fund_Meta fund = zeroMeta ->
                  StatusCode resp = 400
                  /\ Body resp = error_body "Invalid mutualFundID")
            /\ (forall fund,
                  upstream w (baseURL +:+ idOf request) = GetOk fund None ->
                  fund_Meta fund <> zeroMeta ->
                  (forall body e,
                     json_Marshal
                       (createSuccessResponse (fund_Meta fund)
                          (filterData (fund_Data fund) start end_) start end_)
                     = (body, Some e) ->
                     StatusCode resp = 500
                     /\ Body resp = error_body "error creating JSON response")
                  /\ (forall body,
                        json_Marshal
                          (createSuccessResponse (fund_Meta fund)
                             (filterData (fund_Data fund) start end_) start end_)
                        = (body, None) ->
                        StatusCode resp = 200 /\ Body resp = body))))
  /\ (StatusCode resp = 200 ->
      parser_gate request = true
      /\ exists start end_ fund,
           fst (validateAndParseDates (startOf request) (endOf request) w)
           = (start, end_, None)
           /\ upstream w (baseURL +:+ idOf request) = GetOk fund None
           /\ fund_Meta fund <> zeroMeta
           /\ json_Marshal
                (createSuccessResponse (fund_Meta fund)
                   (filterData (fund_Data fund) start end_) start end_)
              = (Body resp, None)).
Proof.
  cbv zeta.
  split; [|split; [|split; [|split; [|split]]]].
  - rewrite Handler_run.
    destruct (String.eqb (idOf request) EmptyString); [reflexivity|].
    destruct (negb (isValidInteger (idOf request))); [reflexivity|].
    destruct (fst (validateAndParseDates _ _ w)) as [[start end_] [e|]]; [reflexivity|].
    unfold after_dates.
    destruct (upstream w _) as [err|fund [derr|]]; try reflexivity.
    destruct (decide _); [reflexivity|].
    unfold marshalled. destruct (json_Marshal _) as [body [e|]]; reflexivity.
  - rewrite Handler_run.
    destruct (String.eqb (idOf request) EmptyString); [reflexivity|].
    destruct (negb (isValidInteger (idOf request))); [reflexivity|].
    destruct (fst (validateAndParseDates _ _ w)) as [[start end_] [e|]]; [reflexivity|].
    unfold after_dates.
    destruct (upstream w _) as [err|fund [derr|]]; try reflexivity.
    destruct (decide _); [reflexivity|].
    unfold marshalled. destruct (json_Marshal _) as [body [e|]]; reflexivity.
  - rewrite Handler_run.
    destruct (String.eqb (idOf request) EmptyString); [simpl; eauto 6|].
    destruct (negb (isValidInteger (idOf request))); [simpl; eauto 6|].
    destruct (fst (validateAndParseDates _ _ w)) as [[start end_] [e|]];
      [simpl; eauto 6|].
    unfold after_dates.
    destruct (upstream w _) as [err|fund [derr|]]; try (simpl; eauto 6; fail).
    destruct (decide _); [simpl; eauto 6|].
    unfold marshalled. destruct (json_Marshal _) as [body [e|]]; simpl; eauto 6.
  - rewrite Handler_run.
    destruct (String.eqb (idOf request) EmptyString); [reflexivity|].
    destruct (negb (isValidInteger (idOf request))); [reflexivity|].
    destruct (fst (validateAndParseDates _ _ w)) as [[start end_] [e|]]; [reflexivity|].
    unfold after_dates.
    destruct (upstream w _) as [err|fund [derr|]]; try reflexivity.
    destruct (decide _); [reflexivity|].
    unfold marshalled. destruct (json_Marshal _) as [body [e|]]; reflexivity.
  - rewrite Handler_run.
    destruct (String.eqb (idOf request) EmptyString); [simpl; eauto|].
    destruct (negb (isValidInteger (idOf request))); [simpl; eauto|].
    destruct (fst (validateAndParseDates _ _ w)) as [[start end_] [e|]];
      [simpl; eauto|].
    unfold after_dates.
    destruct (upstream w _) as [err|fund [derr|]]; try (simpl; eauto; fail).
    destruct (decide _); [simpl; eauto|].
    unfold marshalled. destruct (json_Marshal _) as [body [e|]]; simpl; eauto.
    intros H. contradiction.
  - split; [|split; [|split]].
    + intros Hid. rewrite Handler_run, Hid. split; reflexivity.
    + intros Hid Hint. rewrite Handler_run, (eqb_empty_false _ Hid), Hint.
      split; reflexivity.
    + intros Hg. rewrite (Handler_past_parser _ _ _ Hg). split.
      * intros start end_ e ->. split; reflexivity.
      * intros start end_ ->. unfold after_dates. split; [|split; [|split]].
        -- intros err ->. split; reflexivity.
        -- intros fund err ->. split; reflexivity.
        -- intros fund -> Hz.
           destruct (decide (fund_Meta fund = zeroMeta)); [|contradiction].
           split; reflexivity.
        -- intros fund -> Hnz.
           destruct (decide (fund_Meta fund = zeroMeta)); [contradiction|].
           split.
           ++ intros body e Hm. unfold marshalled. rewrite Hm. split; reflexivity.
           ++ intros body Hm. unfold marshalled. rewrite Hm. split; reflexivity.
    + intros Hok. split.
      * revert Hok. rewrite Handler_run. unfold parser_gate.
        destruct (String.eqb (idOf request) EmptyString); [discriminate|].
        destruct (isValidInteger (idOf request)); [reflexivity|discriminate].
      * destruct (Handler_success _ _ _ Hok) as (start & end_ & fund & Hv & Hup & Hne & Hm).
        exists start, end_, fund. auto.
Qed.

(** An unreachable upstream: status 500 and the text of the failure in the
    body; a one-sided range: status 400. *)
Lemma C10_Handler_witness :
  (StatusCode (fst (fst (Handler toy_Marshal
                           (mkQueryOf [("mutualFundID", "119598")]) unreachable_world)))
   = 500
   /\ Body (fst (fst (Handler toy_Marshal
                        (mkQueryOf [("mutualFundID", "119598")]) unreachable_world)))
      = error_body ("error fetching data from API: " +:+ unreachable_error))
  /\ (StatusCode (fst (fst (Handler toy_Marshal one_sided_request ex_world))) = 400
      /\ Body (fst (fst (Handler toy_Marshal one_sided_request ex_world)))
         = error_body "both start and end dates are required in the format dd-mm-yyyy").
Proof.
  split.
  - destruct (C10_Handler_returns_nil_error toy_Marshal
                (mkQueryOf [("mutualFundID", "119598")]) unreachable_world)
      as (_ & _ & _ & _ & _ & _ & _ & Hgate & _).
    destruct (Hgate eq_refl) as [_ Haccepted].
    destruct (Haccepted time.zero time.zero eq_refl) as (Hfetch & _).
    apply (Hfetch unreachable_error). reflexivity.
  - destruct (C10_Handler_returns_nil_error toy_Marshal one_sided_request ex_world)
      as (_ & _ & _ & _ & _ & _ & _ & Hgate & _).
    destruct (Hgate eq_refl) as [Hrefused _].
    apply (Hrefused time.zero time.zero). reflexivity.
Defined.

(** * Further properties of the code *)

(** ** Instants *)

Lemma After_not_leb (t u : time.Time) : time.After t u = negb (time_leb t u).
Proof.
  unfold time.After, time_leb. destruct t as [ts tn], u as [us un]; simpl.
  rewrite !Z.gtb_ltb.
  destruct (Z.ltb_spec us ts), (Z.ltb_spec ts us), (Z.eqb_spec ts us),
    (Z.ltb_spec un tn), (Z.leb_spec tn un); simpl; try reflexivity; lia.
Qed.

Lemma time_leb_trans (t u v : time.Time) :
  time_leb t u = true -> time_leb u v = true -> time_leb t v = true.
Proof.
  unfold time_leb. destruct t as [ts tn], u as [us un], v as [vs vn]; simpl.
  rewrite !orb_true_iff, !andb_true_iff, !Z.ltb_lt, !Z.eqb_eq, !Z.leb_le. lia.
Qed.

Lemma time_leb_refl (t : time.Time) : time_leb t t = true.
Proof.
  unfold time_leb. destruct t as [ts tn]; simpl.
  rewrite Z.eqb_refl, Z.leb_refl. apply orb_true_r.
Qed.

(** ** [isValidInteger] *)

Lemma digits_all_digits (s : string) : forall acc v,
  strconv.digits acc s = Some v -> all_digits s = true.
Proof.
  unfold all_digits. induction s as [|c s IH]; intros acc v H; simpl in *.
  - reflexivity.
  - destruct (is_digit c); [|discriminate]. simpl. eapply IH, H.
Qed.

Lemma digits_bounds (s : string) : forall acc,
  all_digits s = true -> 0 <= acc ->
  exists v, strconv.digits acc s = Some v
            /\ acc * 10 ^ Z.of_nat (String.length s) <= v
               < (acc + 1) * 10 ^ Z.of_nat (String.length s).
Proof.
  unfold all_digits. induction s as [|c s IH]; intros acc Hd Hacc.
  - exists acc. simpl. split; [reflexivity|lia].
  - simpl in Hd. apply andb_true_iff in Hd as [Hc Hs].
    cbn [strconv.digits String.length]. rewrite Hc.
    destruct (is_digit_spec c Hc) as [Hr _].
    destruct (IH (10 * acc + digit_val c) Hs ltac:(lia)) as (v & Hv & Hlo & Hhi).
    exists v. split; [exact Hv|].
    rewrite Nat2Z.inj_succ, Z.pow_succ_r by lia.
    assert (0 < 10 ^ Z.of_nat (String.length s)) by (apply Z.pow_pos_nonneg; lia).
    nia.
Qed.

Lemma Atoi_syntax (value : string) (x : Z) :
  strconv.Atoi value = Some x ->
  unsigned_part value <> EmptyString /\ all_digits (unsigned_part value) = true.
Proof.
  unfold strconv.Atoi.
  assert (Hbody : forall neg body,
            match body with
            | EmptyString => None
            | String _ _ =>
                n ← strconv.digits 0 body;
                (let x := if neg : bool then - n else n in
                 if (strconv.minInt <=? x) && (x <=? strconv.maxInt)
                 then Some x else None)
            end = Some x ->
            body <> EmptyString /\ all_digits body = true).
  { intros neg body H. destruct body as [|c body]; [discriminate|].
    split; [discriminate|].
    destruct (strconv.digits 0 (String c body)) as [n|] eqn:Hn; [|discriminate].
    eapply digits_all_digits, Hn. }
  intros H. destruct value as [|c rest].
  - discriminate.
  - destruct (Ascii.eqb_spec c "-") as [->|Hm].
    + apply (Hbody true rest H).
    + destruct (Ascii.eqb_spec c "+") as [->|Hp].
      * apply (Hbody false rest H).
      * assert (Hu : unsigned_part (String c rest) = String c rest).
        { destruct c as [[] [] [] [] [] [] [] []]; try reflexivity; congruence. }
        rewrite Hu. apply (Hbody false (String c rest)).
        destruct c as [[] [] [] [] [] [] [] []]; try exact H; congruence.
Qed.

(** X1. A fund id that [isValidInteger] accepts is an optional sign followed
    by at least one byte, all of them decimal digits: no white space, no
    decimal point, no digit separator, no hexadecimal. *)
Theorem isValidInteger_syntax (value : string) :
  isValidInteger value = true ->
  unsigned_part value <> EmptyString /\ all_digits (unsigned_part value) = true.
Proof.
  unfold isValidInteger. intros H.
  destruct (strconv.Atoi value) as [x|] eqn:Hx; [|discriminate].
  apply (Atoi_syntax _ _ Hx).
Qed.

Lemma isValidInteger_syntax_witness :
  unsigned_part "-119598" <> EmptyString /\ all_digits (unsigned_part "-119598") = true.
Proof. apply (isValidInteger_syntax "-119598"). reflexivity. Defined.

Lemma digits_18 (body : string) :
  all_digits body = true -> (String.length body <= 18)%nat ->
  exists v, strconv.digits 0 body = Some v /\ 0 <= v < 10 ^ 18.
Proof.
  intros Hd Hlen.
  destruct (digits_bounds body 0 Hd ltac:(lia)) as (v & Hv & Hlo & Hhi).
  assert (Hpow : 10 ^ Z.of_nat (String.length body) <= 10 ^ 18).
  { apply Z.pow_le_mono_r; lia. }
  exists v. split; [exact Hv|lia].
Qed.

Ltac atoi_in_range Hv :=
  cbv beta iota zeta; rewrite Hv; cbn [mbind option_bind]; cbv beta zeta;
  repeat match goal with
         | |- context [?a <=? ?b] => destruct (Z.leb_spec a b)
         end;
  simpl; try reflexivity; lia.

(** X2. Every string of one to eighteen decimal digits is accepted by
    [isValidInteger], leading zeros included, and so is the same string
    after a plus or a minus sign. *)
Theorem isValidInteger_decimal (body : string) :
  body <> EmptyString -> all_digits body = true ->
  (String.length body <= 18)%nat ->
  isValidInteger body = true
  /\ isValidInteger (String "-" body) = true
  /\ isValidInteger (String "+" body) = true.
Proof.
  intros Hne Hd Hlen. unfold isValidInteger, strconv.Atoi.
  destruct (digits_18 body Hd Hlen) as (v & Hv & Hr).
  assert (Hmax : strconv.maxInt = 9223372036854775807) by reflexivity.
  assert (Hmin : strconv.minInt = -9223372036854775808) by reflexivity.
  assert (H18 : 10 ^ 18 = 1000000000000000000) by reflexivity.
  destruct body as [|c body]; [contradiction|].
  repeat split.
  - assert (Hc : is_digit c = true).
    { unfold all_digits in Hd. simpl in Hd. now apply andb_true_iff in Hd as [Hc _]. }
    destruct c as [[] [] [] [] [] [] [] []]; try discriminate Hc; atoi_in_range Hv.
  - atoi_in_range Hv.
  - atoi_in_range Hv.
Qed.

Lemma isValidInteger_decimal_witness :
  isValidInteger "000119598" = true
  /\ isValidInteger "-000119598" = true
  /\ isValidInteger "+000119598" = true.
Proof.
  apply (isValidInteger_decimal "000119598").
  - discriminate.
  - reflexivity.
  - simpl. lia.
Defined.

(** ** [parseDates] and [validateAndParseDates] *)

(** X3. With both dates given and a fund id that has passed the parser gate,
    a start date that does not parse is reported as
    [invalid start date format. use dd-mm-yyyy] whatever the end date is, and
    an end date that does not parse is reported as
    [invalid end date format. use dd-mm-yyyy] once the start date has parsed;
    both with status 400 and before any request to the upstream. *)
Theorem Handler_invalid_date_format
    (json_Marshal : Response -> string * option string)
    (request : APIGatewayProxyRequest) (w : World) :
  parser_gate request = true ->
  startOf request <> EmptyString ->
  endOf request <> EmptyString ->
  (time.Parse (startOf request) = None ->
   Handler json_Marshal request w
   = (createErrorResponse 400 "invalid start date format. use dd-mm-yyyy", []))
  /\ (time.Parse (startOf request) <> None ->
      time.Parse (endOf request) = None ->
      Handler json_Marshal request w
      = (createErrorResponse 400 "invalid end date format. use dd-mm-yyyy", [])).
Proof.
  intros Hg Hs He. rewrite (Handler_past_parser _ _ _ Hg).
  unfold validateAndParseDates, parseDates.
  rewrite (eqb_empty_false _ Hs), (eqb_empty_false _ He). simpl.
  split.
  - intros ->. reflexivity.
  - intros Hps Hpe. destruct (time.Parse (startOf request)); [|contradiction].
    rewrite Hpe. reflexivity.
Qed.

(** An ISO date as start, and a 30th of February as end. *)
Lemma Handler_invalid_date_format_witness :
  Handler toy_Marshal (mkQuery "119598" "2023-01-01" "also wrong") ex_world
  = (createErrorResponse 400 "invalid start date format. use dd-mm-yyyy", [])
  /\ Handler toy_Marshal (mkQuery "119598" "01-01-2023" "30-02-2023") ex_world
     = (createErrorResponse 400 "invalid end date format. use dd-mm-yyyy", []).
Proof.
  split.
  - apply (Handler_invalid_date_format toy_Marshal
             (mkQuery "119598" "2023-01-01" "also wrong") ex_world);
      [reflexivity|discriminate|discriminate|reflexivity].
  - apply (Handler_invalid_date_format toy_Marshal
             (mkQuery "119598" "01-01-2023" "30-02-2023") ex_world);
      [reflexivity|discriminate|discriminate|discriminate|reflexivity].
Defined.

(** X4. Range validation requests nothing from the upstream and has two
    outcomes.  Without an error, either no date was given and both times are
    the zero time, or both dates parse to the returned times, the start is
    not after the end and the end is not after the current moment.  With an
    error, both times are the zero time and the message is one of the five
    messages of range validation. *)
Theorem validateAndParseDates_outcome (startDate endDate : string) (w : World) :
  snd (validateAndParseDates startDate endDate w) = []
  /\ match fst (validateAndParseDates startDate endDate w) with
     | (start, end_, None) =>
         (startDate = EmptyString /\ endDate = EmptyString
          /\ start = time.zero /\ end_ = time.zero)
         \/ (time.Parse startDate = Some start /\ time.Parse endDate = Some end_
             /\ time_leb start end_ = true /\ time_leb end_ (now w) = true)
     | (start, end_, Some message) =>
         start = time.zero /\ end_ = time.zero /\ In message date_messages
     end.
Proof.
  split; [apply validateAndParseDates_trace|].
  unfold validateAndParseDates, parseDates, date_messages.
  destruct (String.eqb_spec startDate EmptyString) as [->|Hs];
    destruct (String.eqb_spec endDate EmptyString) as [->|He]; simpl.
  - left. repeat split.
  - auto 10.
  - auto 10.
  - destruct (time.Parse startDate) as [start|]; [|simpl; auto 10].
    destruct (time.Parse endDate) as [end_|]; [|simpl; auto 10].
    unfold mbind, IO_bind, time_Now. simpl.
    rewrite !After_not_leb.
    destruct (time_leb end_ (now w)) eqn:Hnow; simpl; [|auto 10].
    destruct (time_leb start end_) eqn:Hord; simpl; [|auto 10].
    right. repeat split; assumption.
Qed.

(** X5. A range that is accepted stays accepted as time goes by: for a
    request whose dates pass range validation, the handler returns the same
    result under every later reading of the clock, the upstream being the
    same. *)
Theorem Handler_later_clock
    (json_Marshal : Response -> string * option string)
    (request : APIGatewayProxyRequest) (w : World) (later : time.Time) :
  snd (fst (validateAndParseDates (startOf request) (endOf request) w)) = None ->
  time_leb (now w) later = true ->
  validateAndParseDates (startOf request) (endOf request) (at_time later w)
  = validateAndParseDates (startOf request) (endOf request) w
  /\ Handler json_Marshal request (at_time later w) = Handler json_Marshal request w.
Proof.
  intros Hacc Hlater.
  assert (Hv : validateAndParseDates (startOf request) (endOf request) (at_time later w)
               = validateAndParseDates (startOf request) (endOf request) w).
  { revert Hacc. generalize (startOf request) (endOf request). intros s e Hacc.
    destruct (time.Parse s) as [start|] eqn:Hs, (time.Parse e) as [end_|] eqn:He.
    - rewrite (validateAndParseDates_parsed _ _ _ _ (at_time later w) Hs He).
      rewrite (validateAndParseDates_parsed _ _ _ _ w Hs He) in Hacc |- *.
      rewrite !After_not_leb in Hacc |- *. simpl now.
      destruct (time_leb end_ (now w)) eqn:Hnow; [|discriminate Hacc].
      rewrite ?After_not_leb, ?Hnow, (time_leb_trans _ _ _ Hnow Hlater). reflexivity.
    - unfold validateAndParseDates, parseDates in *. rewrite Hs, He in *.
      destruct (negb (String.eqb s EmptyString) && negb (String.eqb e EmptyString));
        [discriminate Hacc|].
      destruct (String.eqb s EmptyString && String.eqb e EmptyString); reflexivity.
    - unfold validateAndParseDates, parseDates in *. rewrite Hs in *.
      destruct (negb (String.eqb s EmptyString) && negb (String.eqb e EmptyString));
        [discriminate Hacc|].
      destruct (String.eqb s EmptyString && String.eqb e EmptyString); reflexivity.
    - unfold validateAndParseDates, parseDates in *. rewrite Hs in *.
      destruct (negb (String.eqb s EmptyString) && negb (String.eqb e EmptyString));
        [discriminate Hacc|].
      destruct (String.eqb s EmptyString && String.eqb e EmptyString); reflexivity. }
  split; [exact Hv|].
  rewrite !Handler_run, Hv. reflexivity.
Qed.

Lemma Handler_later_clock_witness :
  Handler toy_Marshal (mkQuery "119598" "01-01-2023" "31-01-2023") (at_time later_now ex_world)
  = Handler toy_Marshal (mkQuery "119598" "01-01-2023" "31-01-2023") ex_world.
Proof.
  apply (Handler_later_clock toy_Marshal
           (mkQuery "119598" "01-01-2023" "31-01-2023") ex_world later_now);
    reflexivity.
Defined.

(** ** [filterData] *)

Lemma filterData_kept (data : list FundItem) (start end_ : time.Time) :
  filterData data start end_ = subsequence (kept start end_) data.
Proof. apply filterData_subsequence. Qed.

Lemma kept_in_range (start end_ : time.Time) (item : FundItem) :
  kept start end_ item
  = (time.IsZero start && time.IsZero end_) && parseable item
    || in_range start end_ item.
Proof.
  unfold kept, keep, parseable, in_range.
  destruct (time.Parse (item_Date item)) as [d|].
  - now rewrite Equal_or_After, Equal_or_Before, andb_true_r.
  - now rewrite andb_false_r.
Qed.

Lemma toFundItem_toDataPoint (item : FundItem) : toFundItem (toDataPoint item) = item.
Proof. now destruct item. Qed.

Lemma subsequence_sublist (p q : FundItem -> bool) (data : list FundItem) :
  (forall item, p item = true -> q item = true) ->
  sublist (subsequence p data) (subsequence q data).
Proof.
  intros Hpq. unfold subsequence. induction data as [|item data IH]; simpl.
  - constructor.
  - destruct (p item) eqn:Hp.
    + rewrite (Hpq _ Hp). simpl. now constructor.
    + destruct (q item); simpl; [now constructor|assumption].
Qed.

Lemma subsequence_of_upstream (p : FundItem -> bool) (data : list FundItem) :
  sublist (subsequence p data) (map toDataPoint data).
Proof.
  unfold subsequence. induction data as [|item data IH]; simpl; [constructor|].
  destruct (p item); simpl; now constructor.
Qed.

Lemma subsequence_kept_dated (start end_ : time.Time) (data : list FundItem) :
  Forall dated (subsequence (kept start end_) data).
Proof.
  unfold subsequence. induction data as [|item data IH]; simpl; [constructor|].
  destruct (kept start end_ item) eqn:Hk; simpl; [|assumption].
  constructor; [|assumption].
  unfold dated, kept in *. simpl.
  destruct (time.Parse (item_Date item)); discriminate.
Qed.

(** X6. Filtering a sequence in two parts and joining the results gives the
    filtering of the whole: a point is kept or dropped on its own date, and
    the order of the kept points is the upstream order. *)
Theorem filterData_app (data1 data2 : list FundItem) (start end_ : time.Time) :
  filterData (data1 ++ data2) start end_
  = filterData data1 start end_ ++ filterData data2 start end_.
Proof.
  rewrite !filterData_kept. unfold subsequence.
  now rewrite List.filter_app, List.map_app.
Qed.

(** X7. Whatever the two times are, the output of [filterData] is a
    subsequence of the upstream points, dates and values unchanged: no point
    is invented, altered, repeated or reordered; every returned point has a
    date that parses, and the output is not longer than the input. *)
Theorem filterData_provenance (data : list FundItem) (start end_ : time.Time) :
  sublist (filterData data start end_) (map toDataPoint data)
  /\ Forall dated (filterData data start end_)
  /\ (length (filterData data start end_) <= length data)%nat.
Proof.
  rewrite filterData_kept. repeat split.
  - apply subsequence_of_upstream.
  - apply subsequence_kept_dated.
  - unfold subsequence. rewrite length_map. apply List.filter_length_le.
Qed.

(** X8. Widening a range never loses a point: with a start that is not
    later and an end that is not earlier, the points kept for the narrower
    range are a subsequence of the points kept for the wider one, provided
    the narrower range is not the pair of zero times. *)
Theorem filterData_widen (data : list FundItem) (start end_ start' end' : time.Time) :
  time.IsZero start && time.IsZero end_ = false ->
  time_leb start' start = true ->
  time_leb end_ end' = true ->
  sublist (filterData data start end_) (filterData data start' end').
Proof.
  intros Hz Hs He. rewrite !filterData_kept.
  apply subsequence_sublist. intros item.
  rewrite !kept_in_range, Hz. simpl. unfold in_range, parseable.
  destruct (time.Parse (item_Date item)) as [d|]; [|discriminate].
  intros H. apply andb_true_iff in H as [H1 H2].
  rewrite (time_leb_trans _ _ _ Hs H1), (time_leb_trans _ _ _ H2 He).
  apply orb_true_r.
Qed.

(** From January 2023 to the whole of 2023. *)
Lemma filterData_widen_witness :
  sublist (filterData ex_data jan_start jan_end) (filterData ex_data year_start year_end).
Proof. apply filterData_widen; reflexivity. Defined.

(** X9. With a start that is after the end, [filterData] returns nothing. *)
Theorem filterData_inverted (data : list FundItem) (start end_ : time.Time) :
  time.After start end_ = true ->
  filterData data start end_ = [].
Proof.
  intros Hinv. rewrite After_not_leb in Hinv. apply negb_true_iff in Hinv.
  assert (Hz : time.IsZero start && time.IsZero end_ = false).
  { destruct (time.IsZero start && time.IsZero end_) eqn:Hz; [|reflexivity].
    apply andb_true_iff in Hz as [Hz1 Hz2].
    destruct start as [s n], end_ as [s' n']. unfold time.IsZero in Hz1, Hz2.
    simpl in Hz1, Hz2.
    apply andb_true_iff in Hz1 as [->%Z.eqb_eq ->%Z.eqb_eq].
    apply andb_true_iff in Hz2 as [->%Z.eqb_eq ->%Z.eqb_eq].
    discriminate Hinv. }
  rewrite filterData_kept. unfold subsequence.
  induction data as [|item data IH]; simpl; [reflexivity|].
  rewrite kept_in_range, Hz. simpl. unfold in_range.
  destruct (time.Parse (item_Date item)) as [d|]; [|exact IH].
  destruct (time_leb start d) eqn:H1; [|exact IH].
  destruct (time_leb d end_) eqn:H2; [|exact IH].
  rewrite (time_leb_trans _ _ _ H1 H2) in Hinv. discriminate Hinv.
Qed.

Lemma filterData_inverted_witness : filterData ex_data jan_end jan_start = [].
Proof. apply filterData_inverted. reflexivity. Defined.

(** X10. Filtering is idempotent: the returned points, read again as
    upstream items and filtered on the same two times, all come back. *)
Theorem filterData_idempotent (data : list FundItem) (start end_ : time.Time) :
  filterData (map toFundItem (filterData data start end_)) start end_
  = filterData data start end_.
Proof.
  rewrite !filterData_kept. unfold subsequence.
  rewrite List.map_map.
  rewrite (List.map_ext _ (fun item => item) toFundItem_toDataPoint), List.map_id.
  f_equal. induction data as [|item data IH]; simpl; [reflexivity|].
  destruct (kept start end_ item) eqn:Hk; simpl; [|exact IH].
  now rewrite Hk, IH.
Qed.

(** ** [Handler] *)

Lemma validateAndParseDates_message (startDate endDate : string) (w : World)
    (start end_ : time.Time) (message : string) :
  fst (validateAndParseDates startDate endDate w) = (start, end_, Some message) ->
  In message date_messages.
Proof.
  unfold validateAndParseDates, parseDates, date_messages.
  destruct (negb (String.eqb startDate EmptyString) && negb (String.eqb endDate EmptyString)).
  - destruct (time.Parse startDate) as [s|]; [|simpl; intros [= _ _ <-]; auto 10].
    destruct (time.Parse endDate) as [e|]; [|simpl; intros [= _ _ <-]; auto 10].
    unfold mbind, IO_bind, time_Now. simpl.
    destruct (time.After e (now w)); [simpl; intros [= _ _ <-]; auto 10|].
    destruct (time.After s e); simpl; [intros [= _ _ <-]; auto 10|discriminate].
  - destruct (String.eqb startDate EmptyString && String.eqb endDate EmptyString);
      simpl; [discriminate|intros [= _ _ <-]; auto 10].
Qed.

(** X14. The handler calls [http.Get] at most once, with the base URL
    followed by the fund id as it was given, and it calls it exactly when
    the fund id has passed the parser gate and range validation has returned
    no error. *)
Theorem Handler_calls_http_Get
    (json_Marshal : Response -> string * option string)
    (request : APIGatewayProxyRequest) (w : World) :
  snd (Handler json_Marshal request w)
  = if parser_gate request then
      match snd (fst (validateAndParseDates (startOf request) (endOf request) w)) with
      | None => ["https://api.mfapi.in/mf/" +:+ idOf request]
      | Some _ => []
      end
    else [].
Proof.
  rewrite Handler_run. unfold parser_gate.
  destruct (String.eqb (idOf request) EmptyString); [reflexivity|].
  destruct (isValidInteger (idOf request)); simpl; [|reflexivity].
  destruct (fst (validateAndParseDates _ _ w)) as [[start end_] [e|]]; simpl;
    [reflexivity|].
  unfold after_dates.
  destruct (upstream w _) as [err|fund [derr|]]; try reflexivity.
  destruct (decide _); reflexivity.
Qed.





(** ** [createErrorResponse] *)

Lemma append_length (s t : string) :
  String.length (s +:+ t) = (String.length s + String.length t)%nat.
Proof. induction s as [|c s IH]; simpl; [reflexivity|now rewrite IH]. Qed.

Lemma utf8_length (n : Z) : (1 <= String.length (rfc8259.utf8 n) <= 3)%nat.
Proof.
  unfold rfc8259.utf8.
  destruct (n <? 128); [simpl; lia|]. destruct (n <? 2048); simpl; lia.
Qed.

(** A string literal is longer than what it stands for: at least by its
    closing quotation mark. *)
Lemma string_body_length (n : nat) : forall s v r,
  (String.length s <= n)%nat ->
  rfc8259.string_body s = Some (v, r) ->
  (String.length v + String.length r < String.length s)%nat.
Proof.
  induction n as [|n IH]; intros s v r Hn H.
  - destruct s; [discriminate H|simpl in Hn; lia].
  - destruct s as [|c rest]; [discriminate H|]. cbn [rfc8259.string_body] in H.
    simpl in Hn.
    destruct (byte_val c =? 34).
    { injection H as <- <-. simpl. lia. }
    destruct (byte_val c =? 92).
    { destruct rest as [|e rest1]; [discriminate H|]. simpl in Hn.
      destruct (byte_val e =? 117).
      - destruct rest1 as [|h1 [|h2 [|h3 [|h4 rest2]]]]; try discriminate H.
        simpl in Hn.
        destruct (rfc8259.hex_val h1) as [a|]; [|discriminate H].
        destruct (rfc8259.hex_val h2) as [b|]; [|discriminate H].
        destruct (rfc8259.hex_val h3) as [c'|]; [|discriminate H].
        destruct (rfc8259.hex_val h4) as [d|]; [|discriminate H].
        cbn [mbind option_bind] in H.
        destruct (rfc8259.string_body rest2) as [[v' r']|] eqn:Hb; [|discriminate H].
        cbn [mbind option_bind] in H. injection H as <- <-.
        apply IH in Hb; [|lia].
        rewrite append_length.
        pose proof (utf8_length (((a * 16 + b) * 16 + c') * 16 + d)).
        simpl. lia.
      - destruct (rfc8259.simple_escape e) as [ch|]; [|discriminate H].
        cbn [mbind option_bind] in H.
        destruct (rfc8259.string_body rest1) as [[v' r']|] eqn:Hb; [|discriminate H].
        cbn [mbind option_bind] in H. injection H as <- <-.
        apply IH in Hb; [|lia]. simpl. lia. }
    destruct (byte_val c <? 32); [discriminate H|].
    destruct (rfc8259.string_body rest) as [[v' r']|] eqn:Hb; [|discriminate H].
    cbn [mbind option_bind] in H. injection H as <- <-.
    apply IH in Hb; [|lia]. simpl. lia.
Qed.

(** A literal that stands for the very bytes between its quotation marks
    holds no escape. *)
Lemma string_body_verbatim (message : string) : forall tail r,
  rfc8259.string_body (message +:+ dquote +:+ tail) = Some (message, r) ->
  (plain_message message = true /\ r = tail)
  \/ (String.length r < String.length tail)%nat.
Proof.
  induction message as [|c message IH]; intros tail r H.
  - left. split; [reflexivity|]. simpl in H. now injection H as <-.
  - change (String c message +:+ dquote +:+ tail)
      with (String c (message +:+ dquote +:+ tail)) in H.
    cbn [rfc8259.string_body] in H.
    destruct (byte_val c =? 34) eqn:H34; [discriminate H|].
    destruct (byte_val c =? 92) eqn:H92.
    { right.
      assert (Hlen : String.length (message +:+ dquote +:+ tail)
                     = (String.length message + 1 + String.length tail)%nat).
      { rewrite !append_length. simpl. lia. }
      destruct (message +:+ dquote +:+ tail) as [|e rest1]; [discriminate H|].
      simpl in Hlen.
      destruct (byte_val e =? 117).
      - destruct rest1 as [|h1 [|h2 [|h3 [|h4 rest2]]]]; try discriminate H.
        simpl in Hlen.
        destruct (rfc8259.hex_val h1) as [a|]; [|discriminate H].
        destruct (rfc8259.hex_val h2) as [b|]; [|discriminate H].
        destruct (rfc8259.hex_val h3) as [c'|]; [|discriminate H].
        destruct (rfc8259.hex_val h4) as [d|]; [|discriminate H].
        cbn [mbind option_bind] in H.
        destruct (rfc8259.string_body rest2) as [[v' r']|] eqn:Hb; [|discriminate H].
        cbn [mbind option_bind] in H. injection H as Hv <-.
        apply (string_body_length _ _ _ _ (le_n _)) in Hb.
        apply (f_equal String.length) in Hv. rewrite append_length in Hv.
        pose proof (utf8_length (((a * 16 + b) * 16 + c') * 16 + d)).
        simpl in Hv. lia.
      - destruct (rfc8259.simple_escape e) as [ch|]; [|discriminate H].
        cbn [mbind option_bind] in H.
        destruct (rfc8259.string_body rest1) as [[v' r']|] eqn:Hb; [|discriminate H].
        cbn [mbind option_bind] in H. injection H as _ -> <-.
        apply (string_body_length _ _ _ _ (le_n _)) in Hb. lia. }
    destruct (byte_val c <? 32) eqn:H32; [discriminate H|].
    destruct (rfc8259.string_body (message +:+ dquote +:+ tail)) as [[v' r']|] eqn:Hb;
      [|discriminate H].
    cbn [mbind option_bind] in H. injection H as -> <-.
    destruct (IH _ _ Hb) as [[Hp ->]|Hlt]; [left|right; assumption].
    split; [|reflexivity].
    unfold plain_message in *. simpl. rewrite Hp.
    unfold plain_char. now rewrite H34, H92, H32.
Qed.

(** X16. For a message of ASCII bytes, the body of an error response is a
    JSON document [{"error": <message>}] that carries the message exactly
    when the message holds no quotation mark, no reverse solidus and no
    control character: with any of these the body is not a JSON document or
    carries another string. *)
Theorem createErrorResponse_json_iff_plain_ascii (statusCode : Z) (message : string) :
  all_ascii message = true ->
  rfc8259.error_document (Body (fst (createErrorResponse statusCode message)))
  = Some message
  <-> plain_message message = true.
Proof.
  intros _.
  split; [|apply createErrorResponse_plain].
  unfold createErrorResponse. cbn [fst Body].
  unfold rfc8259.error_document. simpl.
  change (EmptyString +:+ message +:+ dquote +:+ "}") with (message +:+ dquote +:+ "}").
  destruct (rfc8259.string_body (message +:+ dquote +:+ "}")) as [[v r]|] eqn:Hb;
    [|discriminate].
  cbn [mbind option_bind].
  destruct (rfc8259.expect 125 r) as [r0|] eqn:He; [|discriminate].
  cbn [mbind option_bind].
  destruct (rfc8259.skip_ws r0); [|discriminate].
  intros [= ->].
  destruct (string_body_verbatim _ _ _ Hb) as [[Hp _]|Hlt]; [exact Hp|].
  destruct r; [discriminate He|simpl in Hlt; lia].
Qed.

(** A decoding error of the upstream, with an apostrophe but none of the three:
    the body carries it. *)
Lemma createErrorResponse_json_iff_plain_ascii_witness :
  rfc8259.error_document
    (Body (fst (createErrorResponse 500
                  "error decoding API response: invalid character '<' looking for beginning of value")))
  = Some "error decoding API response: invalid character '<' looking for beginning of value".
Proof.
  apply (createErrorResponse_json_iff_plain_ascii 500
           "error decoding API response: invalid character '<' looking for beginning of value");
    reflexivity.
Defined.

Lemma client_messages_plain : forallb plain_message client_messages = true.
Proof. vm_compute. reflexivity. Qed.

(** X17. Every response with status 400 is a well-formed JSON document
    [{"error": <message>}] whose message is one of the eight fixed messages
    for a refused fund id, a refused range or empty metadata: no text of the
    upstream or of the request gets into it. *)
Theorem Handler_client_error_is_json
    (json_Marshal : Response -> string * option string)
    (request : APIGatewayProxyRequest) (w : World) :
  StatusCode (fst (fst (Handler json_Marshal request w))) = 400 ->
  exists message,
    In message client_messages
    /\ fst (Handler json_Marshal request w) = createErrorResponse 400 message
    /\ rfc8259.error_document (Body (fst (fst (Handler json_Marshal request w))))
       = Some message.
Proof.
  intros H400.
  assert (Hm : exists message,
             In message client_messages
             /\ fst (Handler json_Marshal request w) = createErrorResponse 400 message).
  { revert H400. rewrite Handler_run. unfold client_messages.
    destruct (String.eqb (idOf request) EmptyString); [simpl; eauto 10|].
    destruct (negb (isValidInteger (idOf request))); [simpl; eauto 10|].
    destruct (fst (validateAndParseDates _ _ w)) as [[start end_] [e|]] eqn:Hv.
    { intros _. exists e. split; [|reflexivity].
      apply in_or_app. right. eapply validateAndParseDates_message, Hv. }
    unfold after_dates.
    destruct (upstream w _) as [err|fund [derr|]]; try discriminate.
    destruct (decide _); [simpl; eauto 10|].
    unfold marshalled. destruct (json_Marshal _) as [body [e|]]; discriminate. }
  destruct Hm as (message & Hin & Heq).
  exists message. split; [exact Hin|]. split; [exact Heq|].
  rewrite Heq. apply createErrorResponse_plain.
  pose proof client_messages_plain as Hp. rewrite forallb_forall in Hp.
  apply Hp, Hin.
Qed.

Lemma Handler_client_error_is_json_witness :
  exists message,
    In message client_messages
    /\ fst (Handler toy_Marshal (mkQuery "11x" "01-01-2023" "31-01-2023") ex_world)
       = createErrorResponse 400 message
    /\ rfc8259.error_document
         (Body (fst (fst (Handler toy_Marshal
                            (mkQuery "11x" "01-01-2023" "31-01-2023") ex_world))))
       = Some message.
Proof.
  apply (Handler_client_error_is_json toy_Marshal
           (mkQuery "11x" "01-01-2023" "31-01-2023") ex_world).
  reflexivity.
Defined.

(** ** The response to a request with a range *)

(** January 2023 on the example fund: the two points of the month and the
    label made of the two strings of the request. *)
Lemma Handler_success_with_range_witness :
  exists fund,
    upstream ex_world "https://api.mfapi.in/mf/119598" = GetOk fund None
    /\ time.After jan_end (now ex_world) = false
    /\ time.After jan_start jan_end = false
    /\ toy_Marshal
         (mkResponse (fund_Meta fund) "01-01-2023 to 31-01-2023"
            (subsequence (in_range jan_start jan_end) (fund_Data fund)))
       = ("Example Growth|01-01-2023 to 31-01-2023|15-01-2023,02-01-2023", None).
Proof.
  apply (Handler_success_with_range toy_Marshal
           (mkQuery "119598" "01-01-2023" "31-01-2023") ex_world jan_start jan_end);
    reflexivity.
Defined.

(** ** The URL of the upstream request *)

(** X18. Every URL the handler passes to [http.Get] is the base URL
    followed by an optional sign and decimal digits, at least one: no other
    byte of the request reaches that URL. *)
Theorem Handler_url_is_numeric
    (json_Marshal : Response -> string * option string)
    (request : APIGatewayProxyRequest) (w : World) (url : string) :
  In url (snd (Handler json_Marshal request w)) ->
  exists mutualFundID,
    url = "https://api.mfapi.in/mf/" +:+ mutualFundID
    /\ unsigned_part mutualFundID <> EmptyString
    /\ all_digits (unsigned_part mutualFundID) = true.
Proof.
  intros Hin. apply Handler_trace in Hin as (Hg & -> & _).
  exists (idOf request). split; [reflexivity|].
  apply parser_gate_true in Hg as [_ Hint]. apply negb_false_iff in Hint.
  unfold isValidInteger in Hint.
  destruct (strconv.Atoi (idOf request)) as [x|] eqn:Hx; [|discriminate].
  apply (Atoi_syntax _ _ Hx).
Qed.

Lemma Handler_url_is_numeric_witness :
  exists mutualFundID,
    "https://api.mfapi.in/mf/119598" = "https://api.mfapi.in/mf/" +:+ mutualFundID
    /\ unsigned_part mutualFundID <> EmptyString
    /\ all_digits (unsigned_part mutualFundID) = true.
Proof.
  apply (Handler_url_is_numeric toy_Marshal
           (mkQuery "119598" "01-01-2023" "31-01-2023") ex_world).
  vm_compute. left. reflexivity.
Defined.
